(** * Model-preparation pipeline of optimum-benchmark

    Shallow embedding of
    - [optimum_benchmark/backends/onnxruntime/backend.py] (ORTBackend),
    - [optimum_benchmark/backends/openvino/backend.py] (OVBackend),
    - [main.py] (run_experiment).

    Python exceptions become the [exn] type; the backend object is a
    record [St] threaded through a state/exception monad [M]; every call
    into an external library (model export and loading, optimizer,
    quantizer, dataset generator, filesystem) is recorded as an [Event]
    in the trace and may fail as decided by an environment [Env].  A
    Python exception leaves the state as it was when it was raised: the
    monad keeps the state on the error branch. *)

From stdpp Require Import base list strings gmap pretty.
From Stdlib Require Import String ZArith.

Open Scope string_scope.

(** ** Python exceptions *)

Inductive exn :=
| NotImplementedError (msg : string)
| ValueError (msg : string)
| IndexError (msg : string)
| KeyError (key : string)
| AttributeError (name : string)
| AssertionError (msg : string)
| UnboundLocalError (name : string)
| KeyboardInterrupt
| LibError (msg : string).

(** [isinstance(e, Exception)]: only [KeyboardInterrupt] is a bare
    [BaseException]. *)
Definition is_Exception (e : exn) : bool :=
  match e with KeyboardInterrupt => false | _ => true end.

(** ** External calls *)

(** Configuration objects built by the optimum library, as far as the
    code chooses between them. *)
Inductive OptConf := OptAuto (level : string) (for_gpu : bool) | OptManual (for_gpu : bool).
Inductive QuantConf := QAuto (preset : string) | QManual.
Inductive CalibConf := CAuto (method : string) | CManual.

Inductive Event :=
| EvGetClass (name : string)
| EvSessionOption (key : string)
| EvTmpCreate (dir : string)
| EvTmpCleanup
| EvCreateNoWeights (dir : string)
| EvLoad (cls model : string) (export : bool) (provider : string)
| EvOptimizerCreate (model : string) (files : list string)
| EvOptimize (oc : OptConf) (save_dir : string)
| EvSaveMetadata (dir : string)
| EvGenDataset (task : string)
| EvQuantizerCreate (model file : string)
| EvFit (file : string) (cc : CalibConf) (qc : QuantConf)
| EvQuantize (file save_dir : string) (qc : QuantConf) (calibrated : bool)
| EvLoadAuto (model : string)
| EvTieWeights
| EvOVQuantizerCreate (task : string)
| EvOVQuantize (save_dir : string) (calibrated : bool)
| EvLoadOV (cls model : string) (export : bool) (device : string).

Global Instance OptConf_eq_dec : EqDecision OptConf.
Proof. solve_decision. Defined.
Global Instance QuantConf_eq_dec : EqDecision QuantConf.
Proof. solve_decision. Defined.
Global Instance CalibConf_eq_dec : EqDecision CalibConf.
Proof. solve_decision. Defined.
Global Instance Event_eq_dec : EqDecision Event.
Proof. solve_decision. Defined.

(** A loaded ORTModel / OVModel, as far as the code inspects it:
    [providers], [model_save_dir] and the optional attributes
    [inputs_names] / [input_names]. *)
Record Loaded := mkLoaded {
  providers : list string;
  model_save_dir : string;
  attr_inputs_names : option (list string);
  attr_input_names : option (list string)
}.

(** The outside world: which external calls raise, what loads return,
    the filesystem listing and the name [TemporaryDirectory()] picks. *)
Record Env := mkEnv {
  env_fail : Event -> option string;
  env_load : Event -> Loaded;
  env_listdir : string -> list string;
  env_isdir : string -> bool;
  env_tmpname : string
}.

(** ** The backend object and the state/exception monad *)

Record St (C : Type) := mkSt {
  config : C;
  trace : list Event;
  model_class : option string;
  pretrained_model : option Loaded;
  tmpdir : option string;
  no_weights_model : option string;
  optimized_model : option string;
  quantized_model : option string;
  has_pretrained_config : bool;
  has_pretrained_processor : bool
}.
Arguments mkSt {C}.
Arguments config {C}.
Arguments trace {C}.
Arguments model_class {C}.
Arguments pretrained_model {C}.
Arguments tmpdir {C}.
Arguments no_weights_model {C}.
Arguments optimized_model {C}.
Arguments quantized_model {C}.
Arguments has_pretrained_config {C}.
Arguments has_pretrained_processor {C}.

Definition M (S A : Type) : Type := S -> (exn + A) * S.

Global Instance M_ret S : MRet (M S) := fun A a s => (inr a, s).
Global Instance M_bind S : MBind (M S) := fun A B k m s =>
  match m s with
  | (inl e, s') => (inl e, s')
  | (inr a, s') => k a s'
  end.

Definition raise {S A} (e : exn) : M S A := fun s => (inl e, s).
Definition get {S} : M S S := fun s => (inr s, s).
Definition modify {S} (f : S -> S) : M S unit := fun s => (inr tt, f s).

Section Setters.
Context {C : Type}.

Definition set_config (c : C) (s : St C) : St C :=
  mkSt c (trace s) (model_class s) (pretrained_model s) (tmpdir s) (no_weights_model s)
    (optimized_model s) (quantized_model s) (has_pretrained_config s) (has_pretrained_processor s).
Definition add_event (ev : Event) (s : St C) : St C :=
  mkSt (config s) (trace s ++ [ev]) (model_class s) (pretrained_model s) (tmpdir s) (no_weights_model s)
    (optimized_model s) (quantized_model s) (has_pretrained_config s) (has_pretrained_processor s).
Definition set_model_class (n : string) (s : St C) : St C :=
  mkSt (config s) (trace s) (Some n) (pretrained_model s) (tmpdir s) (no_weights_model s)
    (optimized_model s) (quantized_model s) (has_pretrained_config s) (has_pretrained_processor s).
Definition set_pretrained_model (l : Loaded) (s : St C) : St C :=
  mkSt (config s) (trace s) (model_class s) (Some l) (tmpdir s) (no_weights_model s)
    (optimized_model s) (quantized_model s) (has_pretrained_config s) (has_pretrained_processor s).
Definition set_tmpdir (d : string) (s : St C) : St C :=
  mkSt (config s) (trace s) (model_class s) (pretrained_model s) (Some d) (no_weights_model s)
    (optimized_model s) (quantized_model s) (has_pretrained_config s) (has_pretrained_processor s).
Definition set_no_weights_model (d : string) (s : St C) : St C :=
  mkSt (config s) (trace s) (model_class s) (pretrained_model s) (tmpdir s) (Some d)
    (optimized_model s) (quantized_model s) (has_pretrained_config s) (has_pretrained_processor s).
Definition set_optimized_model (d : string) (s : St C) : St C :=
  mkSt (config s) (trace s) (model_class s) (pretrained_model s) (tmpdir s) (no_weights_model s)
    (Some d) (quantized_model s) (has_pretrained_config s) (has_pretrained_processor s).
Definition set_quantized_model (d : string) (s : St C) : St C :=
  mkSt (config s) (trace s) (model_class s) (pretrained_model s) (tmpdir s) (no_weights_model s)
    (optimized_model s) (Some d) (has_pretrained_config s) (has_pretrained_processor s).

(** Reading an attribute of [self]: an unset attribute raises. *)
Definition attr {A} (f : St C -> option A) (name : string) : M (St C) A :=
  fun s => match f s with
           | Some a => (inr a, s)
           | None => (inl (AttributeError name), s)
           end.

Definition get_config : M (St C) C := fun s => (inr (config s), s).
Definition put_config (c : C) : M (St C) unit := modify (set_config c).

End Setters.

(** Modelled from the spec: [Backend.__init__] (backends/base.py, not in
    the sources) keeps the configuration object it is given as
    [self.config] (the caller's object, not a copy) and loads the
    pretrained config/processor metadata, whose presence is given here as
    two flags; the spec lists no failure or I/O for it. *)
Definition base_init {C} (c : C) (pconf pproc : bool) : St C :=
  mkSt c [] None None None None None None pconf pproc.

(** Helpers for Python builtins used by the code. *)

(** [os.path.join(a, b)] and [f"{a}/{b}"] for a relative [b]. *)
Definition path_join (a b : string) : string := a ++ "/" ++ b.

Definition endswith (s suf : string) : bool :=
  (String.length suf <=? String.length s)%nat &&
  String.eqb (substring (String.length s - String.length suf) (String.length suf) s) suf.

(** [repr] of a [str] of printable ASCII characters: in single quotes
    unless the text holds a single quote and no double quote; a backslash
    is doubled, and inside single quotes a single quote is escaped. *)
Definition dquote : Ascii.ascii := Ascii.ascii_of_nat 34.
Definition squote : Ascii.ascii := Ascii.ascii_of_nat 39.
Definition backslash : Ascii.ascii := Ascii.ascii_of_nat 92.

Fixpoint has_char (a : Ascii.ascii) (s : string) : bool :=
  match s with
  | EmptyString => false
  | String b r => Ascii.eqb a b || has_char a r
  end.

Fixpoint repr_escape (q : Ascii.ascii) (s : string) : string :=
  match s with
  | EmptyString => EmptyString
  | String b r =>
      if Ascii.eqb b backslash || Ascii.eqb b q then String backslash (String b (repr_escape q r))
      else String b (repr_escape q r)
  end.

Definition py_str_repr (s : string) : string :=
  let q := if has_char squote s && negb (has_char dquote s) then dquote else squote in
  String q (repr_escape q s ++ String q EmptyString).

(** [str] of a Python list of strings: [['a', 'b']]. *)
Definition py_str_list_repr (l : list string) : string :=
  "[" ++ String.concat ", " (map py_str_repr l) ++ "]".

(** [key in d] / [d[key]] on a dict of strings, as an association list. *)
Fixpoint assoc (k : string) (l : list (string * string)) : option string :=
  match l with
  | [] => None
  | (k', v) :: l' => if String.eqb k k' then Some v else assoc k l'
  end.

Definition mem (k : string) (l : list string) : bool := bool_decide (k ∈ l).

Section Effects.
Variable env : Env.
Context {C : Type}.

(** One external call: recorded in the trace, then raising if the
    environment says so. *)
Definition call (ev : Event) : M (St C) unit :=
  fun s => let s' := add_event ev s in
           match env_fail env ev with
           | Some msg => (inl (LibError msg), s')
           | None => (inr tt, s')
           end.

(** [TemporaryDirectory()] and [tmpdir.cleanup()]. *)
Definition tmpdir_create : M (St C) unit :=
  call (EvTmpCreate (env_tmpname env)) ;; modify (set_tmpdir (env_tmpname env)).

Definition tmpdir_cleanup : M (St C) unit := call EvTmpCleanup.

End Effects.

(** ** Input mappings of the inference facade *)

(** A value of the input mapping: a tensor (its contents and the device it
    lives on) or a text prompt. *)
Inductive InVal := Tensor (data : Z) (dev : string) | Text (s : string).

(** [value.to(device)]: only tensors have a [.to] method. *)
Definition to_device (dev : string) (v : InVal) : exn + InVal :=
  match v with
  | Tensor d _ => inr (Tensor d dev)
  | Text _ => inl (AttributeError "to")
  end.

(** Modelled from the spec: [Backend.prepare_inputs] (backends/base.py,
    not in the sources); the spec puts all input adaptation in the
    backends' own [prepare_inputs], so the base step hands the mapping
    on unchanged. *)
Definition base_prepare_inputs (inputs : gmap string InVal) : gmap string InVal := inputs.

(** ** ORTBackend (backends/onnxruntime/backend.py) *)

Module ORT.

Record ORTConfig := mkORTConfig {
  model : string;
  export : bool;
  task : string;
  device : string;
  library : string;
  no_weights : bool;
  provider : string;
  use_merged : bool;
  session_options : list string;
  optimization : bool;
  auto_optimization : option string;
  quantization : bool;
  auto_quantization : option string;
  calibration : bool;
  auto_calibration : option string
}.

Definition set_model (m : string) (c : ORTConfig) : ORTConfig :=
  mkORTConfig m (export c) (task c) (device c) (library c) (no_weights c) (provider c)
    (use_merged c) (session_options c) (optimization c) (auto_optimization c)
    (quantization c) (auto_quantization c) (calibration c) (auto_calibration c).
Definition set_export (b : bool) (c : ORTConfig) : ORTConfig :=
  mkORTConfig (model c) b (task c) (device c) (library c) (no_weights c) (provider c)
    (use_merged c) (session_options c) (optimization c) (auto_optimization c)
    (quantization c) (auto_quantization c) (calibration c) (auto_calibration c).

Abbreviation S := (St ORTConfig).

Definition PROBLEMATIC_INPUTS : list string := ["token_type_ids"; "position_ids"].
(** [optimum.onnxruntime.ONNX_DECODER_NAME] and [ONNX_DECODER_WITH_PAST_NAME]. *)
Definition ONNX_DECODER_NAME : string := "decoder_model.onnx".
Definition ONNX_DECODER_WITH_PAST_NAME : string := "decoder_with_past_model.onnx".

Definition is_optimized (c : ORTConfig) : bool :=
  bool_decide (auto_optimization c <> None) || optimization c.
Definition is_quantized (c : ORTConfig) : bool :=
  bool_decide (auto_quantization c <> None) || quantization c.
Definition is_calibrated (c : ORTConfig) : bool :=
  bool_decide (auto_calibration c <> None) || calibration c.

Definition set_config_model (m : string) : M S unit :=
  c ← get_config; put_config (set_model m c).
Definition set_config_export (b : bool) : M S unit :=
  c ← get_config; put_config (set_export b c).

Section Backend.
Variable env : Env.
(** [TASKS_TO_ORTSD] and [TASKS_TO_ORTMODELS] of onnxruntime/utils.py:
    task name to loader class path. *)
Variables TASKS_TO_ORTSD TASKS_TO_ORTMODELS : list (string * string).

Definition validate_task : M S unit :=
  c ← get_config;
  match assoc (task c) TASKS_TO_ORTSD with
  | Some n => call env (EvGetClass n) ;; modify (set_model_class n)
  | None =>
      match assoc (task c) TASKS_TO_ORTMODELS with
      | Some n => call env (EvGetClass n) ;; modify (set_model_class n)
      | None => raise (NotImplementedError ("ORTBackend does not support task " ++ task c))
      end
  end.

(** [setattr(self.session_options, key, value)] for each configured key. *)
Fixpoint set_session_options (keys : list string) : M S unit :=
  match keys with
  | [] => mret tt
  | k :: ks => call env (EvSessionOption k) ;; set_session_options ks
  end.

Definition validate_provider : M S unit :=
  pm ← attr pretrained_model "pretrained_model";
  c ← get_config;
  match providers pm with
  | [] => raise (IndexError "list index out of range")
  | p :: _ =>
      if String.eqb p (provider c) then mret tt
      else raise (ValueError (provider c ++ " is not first in providers list: "
                              ++ py_str_list_repr (providers pm)))
  end.

Definition create_no_weights_model : M S unit :=
  tmp ← attr tmpdir "tmpdir";
  let d := path_join tmp "no_weights_model" in
  modify (set_no_weights_model d) ;;
  call env (EvCreateNoWeights d) ;;
  c ← get_config;
  if String.eqb (library c) "transformers" then call env (EvSaveMetadata d) else mret tt.

Definition load_ortmodel_from_pretrained : M S unit :=
  cls ← attr model_class "ortmodel_class";
  c ← get_config;
  let ev := EvLoad cls (model c) (export c) (provider c) in
  call env ev ;;
  modify (set_pretrained_model (env_load env ev)).

(** The [random_init_weights()] context of transformers_utils only changes
    how weights are initialised and is not modelled. *)
Definition load_ortmodel_with_no_weights : M S unit :=
  create_no_weights_model ;;
  c ← get_config;
  nw ← attr no_weights_model "no_weights_model";
  let original_model := model c in
  set_config_model nw ;;
  load_ortmodel_from_pretrained ;;
  set_config_model original_model.

Definition onnx_files_names : M S (list string) :=
  c ← get_config;
  if env_isdir env (model c) then
    let files := env_listdir env (model c) in
    if use_merged c then
      mret (filter (fun m => negb (mem m [ONNX_DECODER_NAME; ONNX_DECODER_WITH_PAST_NAME])
                             && endswith m ".onnx") files)
    else mret (filter (fun f => endswith f ".onnx") files)
  else raise (AssertionError (model c ++ " is not a directory")).

Definition inputs_names : M S (list string) :=
  pm ← attr pretrained_model "pretrained_model";
  match attr_inputs_names pm with
  | Some l => mret l
  | None => match attr_input_names pm with
            | Some l => mret l
            | None => mret []
            end
  end.

Definition save_metadata (d : string) : M S unit :=
  s ← get;
  (if has_pretrained_processor s then call env (EvSaveMetadata d) else mret tt) ;;
  (if has_pretrained_config s then call env (EvSaveMetadata d) else mret tt).

Definition optimize_onnx_files : M S unit :=
  tmp ← attr tmpdir "tmpdir";
  let od := path_join tmp "optimized" in
  modify (set_optimized_model od) ;;
  c ← get_config;
  let optimization_config :=
    match auto_optimization c with
    | Some level => Some (OptAuto level (String.eqb (device c) "cuda"))
    | None => if optimization c then Some (OptManual (String.eqb (device c) "cuda")) else None
    end in
  files ← onnx_files_names;
  call env (EvOptimizerCreate (model c) files) ;;
  match optimization_config with
  | Some oc => call env (EvOptimize oc od)
  | None => raise (UnboundLocalError "optimization_config")
  end ;;
  save_metadata od.

(** The loop [for onnx_file_name in self.onnx_files_names] of
    [quantize_onnx_files]. *)
Fixpoint quantize_files (c : ORTConfig) (qd : string) (qc : option QuantConf)
    (cc : option CalibConf) (files : list string) : M S unit :=
  match files with
  | [] => mret tt
  | f :: fs =>
      call env (EvQuantizerCreate (model c) f) ;;
      (if is_calibrated c then
         match cc, qc with
         | Some cc, Some qc => call env (EvFit f cc qc)
         | None, _ => raise (UnboundLocalError "calibration_config")
         | _, None => raise (UnboundLocalError "quantization_config")
         end
       else mret tt) ;;
      match qc with
      | Some qc => call env (EvQuantize f qd qc (is_calibrated c))
      | None => raise (UnboundLocalError "quantization_config")
      end ;;
      quantize_files c qd qc cc fs
  end.

Definition quantize_onnx_files : M S unit :=
  tmp ← attr tmpdir "tmpdir";
  let qd := path_join tmp "quantized_model" in
  modify (set_quantized_model qd) ;;
  c ← get_config;
  (if is_calibrated c then
     files ← onnx_files_names;
     if (1 <? List.length files)%nat then
       raise (NotImplementedError
         ("Calibrated/Static Quantization is not supported for models with multiple components. "
          ++ "Found " ++ pretty (List.length files) ++ " components."))
     else mret tt
   else mret tt) ;;
  let quantization_config :=
    match auto_quantization c with
    | Some preset => Some (QAuto preset)
    | None => if quantization c then Some QManual else None
    end in
  cc ← (if is_calibrated c then
          call env (EvGenDataset (task c)) ;;
          _ ← inputs_names;
          mret (match auto_calibration c with
                | Some meth => Some (CAuto meth)
                | None => if calibration c then Some CManual else None
                end)
        else mret None);
  files ← onnx_files_names;
  quantize_files c qd quantization_config cc files ;;
  save_metadata qd.

(** Lines 57-74 of [ORTBackend.__init__]: the Optimize and Quantize
    stages and the reload of their artifact. *)
Definition transform_stages : M S unit :=
  c ← get_config;
  if is_optimized c || is_quantized c then
    pm ← attr pretrained_model "pretrained_model";
    let original_model := model c in
    set_config_model (model_save_dir pm) ;;
    c1 ← get_config;
    (if is_optimized c1 then
       optimize_onnx_files ;;
       od ← attr optimized_model "optimized_model";
       set_config_model od
     else mret tt) ;;
    c2 ← get_config;
    (if is_quantized c2 then
       quantize_onnx_files ;;
       qd ← attr quantized_model "quantized_model";
       set_config_model qd
     else mret tt) ;;
    c3 ← get_config;
    if is_optimized c3 || is_quantized c3 then
      let original_export := export c3 in
      set_config_export false ;;
      load_ortmodel_from_pretrained ;;
      set_config_model original_model ;;
      set_config_export original_export
    else mret tt
  else mret tt.

(** Lines 38-75 of [ORTBackend.__init__]. *)
Definition ort_setup : M S unit :=
  validate_task ;;
  c ← get_config;
  set_session_options (session_options c) ;;
  tmpdir_create env ;;
  c' ← get_config;
  (if no_weights c' then load_ortmodel_with_no_weights else load_ortmodel_from_pretrained) ;;
  transform_stages.

Definition ort_init : M S unit :=
  ort_setup ;;
  validate_provider ;;
  tmpdir_cleanup env.

(** [ORTBackend(config)] for a configuration [c]. *)
Definition ORTBackend (c : ORTConfig) (pconf pproc : bool) : (exn + unit) * S :=
  ort_init (base_init c pconf pproc).

(** [for key, value in list(inputs.items())] of [prepare_inputs]: the loop
    runs over a snapshot of the items and updates [inputs] in place.  Each
    key is visited once, so the order of the snapshot does not matter. *)
Fixpoint prepare_loop (dev : string) (items : list (string * InVal))
    (inputs : gmap string InVal) : M S (gmap string InVal) :=
  match items with
  | [] => mret inputs
  | (key, value) :: rest =>
      if negb (mem key PROBLEMATIC_INPUTS) then
        match to_device dev value with
        | inr v => prepare_loop dev rest (<[key := v]> inputs)
        | inl e => raise e
        end
      else
        names ← inputs_names;
        if negb (mem key names) then prepare_loop dev rest (delete key inputs)
        else prepare_loop dev rest inputs
  end.

Definition prepare_inputs (inputs0 : gmap string InVal) : M S (gmap string InVal) :=
  let inputs := base_prepare_inputs inputs0 in
  c ← get_config;
  if String.eqb (library c) "diffusers" then
    match inputs !! "prompt" with
    | Some p => mret {[ "prompt" := p ]}
    | None => raise (KeyError "prompt")
    end
  else prepare_loop (device c) (map_to_list inputs) inputs.

End Backend.
End ORT.

(** ** OVBackend (backends/openvino/backend.py) *)

Module OV.

(** Values of the [openvino_config] dict. *)
Inductive ovval := OVInt (n : Z) | OVStr (s : string).

Record OVConfig := mkOVConfig {
  model : string;
  export : bool;
  task : string;
  device : string;
  library : string;
  no_weights : bool;
  quantization : bool;
  calibration : bool;
  inter_op_num_threads : option Z;
  openvino_config : gmap string ovval
}.

Definition set_model (m : string) (c : OVConfig) : OVConfig :=
  mkOVConfig m (export c) (task c) (device c) (library c) (no_weights c) (quantization c)
    (calibration c) (inter_op_num_threads c) (openvino_config c).
Definition set_export (b : bool) (c : OVConfig) : OVConfig :=
  mkOVConfig (model c) b (task c) (device c) (library c) (no_weights c) (quantization c)
    (calibration c) (inter_op_num_threads c) (openvino_config c).
Definition set_openvino_config (d : gmap string ovval) (c : OVConfig) : OVConfig :=
  mkOVConfig (model c) (export c) (task c) (device c) (library c) (no_weights c) (quantization c)
    (calibration c) (inter_op_num_threads c) d.

Abbreviation S := (St OVConfig).

(** [openvino.runtime.properties.inference_num_threads()]. *)
Definition inference_num_threads : string := "INFERENCE_NUM_THREADS".

Definition set_config_model (m : string) : M S unit :=
  c ← get_config; put_config (set_model m c).
Definition set_config_export (b : bool) : M S unit :=
  c ← get_config; put_config (set_export b c).

Section Backend.
Variable env : Env.
(** [TASKS_TO_OVMODEL] of openvino/utils.py. *)
Variable TASKS_TO_OVMODEL : list (string * string).

Definition validate_task : M S unit :=
  c ← get_config;
  match assoc (task c) TASKS_TO_OVMODEL with
  | None => raise (NotImplementedError ("OVBackend does not support task " ++ task c))
  | Some n => call env (EvGetClass n) ;; modify (set_model_class n)
  end.

Definition create_no_weights_model : M S unit :=
  tmp ← attr tmpdir "tmpdir";
  let d := path_join tmp "no_weights_model" in
  modify (set_no_weights_model d) ;;
  call env (EvCreateNoWeights d) ;;
  c ← get_config;
  if String.eqb (library c) "transformers" then call env (EvSaveMetadata d) else mret tt.

(** [self.automodel_class] is resolved by the base class; the loaded
    AutoModel is only handed to the quantizer, so it is not kept. *)
Definition load_automodel_from_pretrained : M S unit :=
  c ← get_config; call env (EvLoadAuto (model c)).

Definition load_automodel_with_no_weights : M S unit :=
  create_no_weights_model ;;
  c ← get_config;
  nw ← attr no_weights_model "no_weights_model";
  let original_model := model c in
  set_config_model nw ;;
  load_automodel_from_pretrained ;;
  set_config_model original_model ;;
  call env EvTieWeights.

Definition load_ovmodel_from_pretrained : M S unit :=
  cls ← attr model_class "ovmodel_class";
  c ← get_config;
  let ev := EvLoadOV cls (model c) (export c) (device c) in
  call env ev ;;
  modify (set_pretrained_model (env_load env ev)).

Definition load_ovmodel_with_no_weights : M S unit :=
  create_no_weights_model ;;
  c ← get_config;
  nw ← attr no_weights_model "no_weights_model";
  let original_model := model c in
  set_config_model nw ;;
  c' ← get_config;
  let original_export := export c' in
  set_config_export true ;;
  load_ovmodel_from_pretrained ;;
  set_config_model original_model ;;
  set_config_export original_export.

Definition quantize_automodel : M S unit :=
  tmp ← attr tmpdir "tmpdir";
  let qd := path_join tmp "quantized_model" in
  modify (set_quantized_model qd) ;;
  c ← get_config;
  call env (EvOVQuantizerCreate (task c)) ;;
  (if calibration c then call env (EvGenDataset (task c)) else mret tt) ;;
  call env (EvOVQuantize qd (calibration c)).

(** Lines 45-59 of [OVBackend.__init__]: the Quantize stage and the
    reload of the quantized model. *)
Definition quantize_stage : M S unit :=
  c1 ← get_config;
  (if no_weights c1 then load_automodel_with_no_weights
   else load_automodel_from_pretrained) ;;
  quantize_automodel ;;
  c2 ← get_config;
  qd ← attr quantized_model "quantized_model";
  let original_model := model c2 in
  set_config_model qd ;;
  c3 ← get_config;
  let original_export := export c3 in
  set_config_export false ;;
  load_ovmodel_from_pretrained ;;
  set_config_model original_model ;;
  set_config_export original_export.

(** Lines 37-39 of [OVBackend.__init__]. *)
Definition apply_inter_op_num_threads : M S unit :=
  c ← get_config;
  match inter_op_num_threads c with
  | Some n =>
      put_config (set_openvino_config
                    (<[inference_num_threads := OVInt n]> (openvino_config c)) c)
  | None => mret tt
  end.

(** Lines 44-66 of [OVBackend.__init__]. *)
Definition load_model : M S unit :=
  c1 ← get_config;
  if quantization c1 then quantize_stage
  else if no_weights c1 then load_ovmodel_with_no_weights
  else load_ovmodel_from_pretrained.

Definition ov_init : M S unit :=
  validate_task ;;
  apply_inter_op_num_threads ;;
  tmpdir_create env ;;
  load_model ;;
  tmpdir_cleanup env.

(** [OVBackend(config)] for a configuration [c]. *)
Definition OVBackend (c : OVConfig) (pconf pproc : bool) : (exn + unit) * S :=
  ov_init (base_init c pconf pproc).

Definition prepare_inputs (inputs0 : gmap string InVal) : M S (gmap string InVal) :=
  let inputs := base_prepare_inputs inputs0 in
  c ← get_config;
  if String.eqb (library c) "diffusers" then
    match inputs !! "prompt" with
    | Some p => mret {[ "prompt" := p ]}
    | None => raise (KeyError "prompt")
    end
  else mret inputs.

End Backend.

(** ** [OVBackend.prepare_for_inference] *)

(** Keyword argument values, [None] included. *)
Inductive pyval :=
| PyNone
| PyInt (n : Z)
| PyStr (s : string).

(** The calls [prepare_for_inference] makes on [self.pretrained_model]. *)
Inductive OVCall :=
| OVReshape (static_shapes : gmap string pyval)
| OVHalf
| OVCompile.

Section Inference.
(** Which calls on the loaded model raise. *)
Variable model_fails : OVCall -> option exn.

(** One call on the loaded model, recorded in the list of calls made. *)
Definition model_call (c : OVCall) : M (list OVCall) unit :=
  fun tr => (match model_fails c with Some e => inl e | None => inr tt end, (tr ++ [c])%list).

(** Lines 173-179: [reshape_args] is
    [inspect.getfullargspec(self.pretrained_model.reshape).args]. *)
Definition static_shapes (reshape_args : list string) (kwargs : gmap string pyval)
    : gmap string pyval :=
  let shapes := filter (fun kv : string * pyval => kv.1 ∈ reshape_args) kwargs in
  if match shapes !! "height" with Some PyNone | None => false | Some _ => true end
     && bool_decide (is_Some (shapes !! "sequence_length"))
  then <["sequence_length" := default (PyInt 3) (kwargs !! "num_channels")]> shapes
  else shapes.

(** [prepare_for_inference], called with keyword arguments [kwargs]; with [reshape] and [half] the
    fields [self.config.reshape] and [self.config.half]. *)
Definition prepare_for_inference (reshape half : bool) (reshape_args : list string)
    (kwargs : gmap string pyval) : M (list OVCall) unit :=
  (if reshape then model_call (OVReshape (static_shapes reshape_args kwargs)) else mret tt) ;;
  (if half then model_call OVHalf else mret tt) ;;
  (if reshape || half then model_call OVCompile else mret tt).

End Inference.
End OV.

(** ** run_experiment (main.py) *)

Module Main.

(** The steps of [run_experiment], each a call that may raise. *)
Inductive Step :=
| SaveConfig
| BenchmarkConfigure
| BackendConstruct
| BackendConfigure
| BenchmarkRun
| BenchmarkSave
| BackendClean
| LogError.

(** Which steps raise, and with what. *)
Definition RunEnv := Step -> option exn.

(** The frame of [run_experiment]: the steps run so far and the locals
    [e] and [raised_error] ([None] while unbound). *)
Record Frame := mkFrame {
  steps : list Step;
  local_e : option exn;
  local_raised_error : option bool
}.

Definition set_e (v : option exn) (f : Frame) : Frame :=
  mkFrame (steps f) v (local_raised_error f).
Definition set_raised_error (b : bool) (f : Frame) : Frame :=
  mkFrame (steps f) (local_e f) (Some b).

Section Run.
Variable r : RunEnv.

Definition step (st : Step) : M Frame unit :=
  fun f => let f' := mkFrame (steps f ++ [st]) (local_e f) (local_raised_error f) in
           match r st with
           | Some e => (inl e, f')
           | None => (inr tt, f')
           end.

(** [try: ... except Exception as e: ...].  On leaving the handler Python
    deletes the name [e] bound by [except ... as e]. *)
Definition try_except (body : M Frame unit) (handler : M Frame unit) : M Frame unit :=
  fun f =>
    match body f with
    | (inr tt, f') => (inr tt, f')
    | (inl ex, f') =>
        if is_Exception ex then
          match handler (set_e (Some ex) f') with
          | (res, f'') => (res, set_e None f'')
          end
        else (inl ex, f')
    end.

(** Reading the local [e]: an unbound local raises. *)
Definition read_e : M Frame exn :=
  fun f => match local_e f with
           | Some ex => (inr ex, f)
           | None => (inl (UnboundLocalError "e"), f)
           end.

Definition read_raised_error : M Frame bool :=
  fun f => match local_raised_error f with
           | Some b => (inr b, f)
           | None => (inl (UnboundLocalError "raised_error"), f)
           end.

Definition run_experiment : M Frame unit :=
  step SaveConfig ;;
  step BenchmarkConfigure ;;
  step BackendConstruct ;;
  try_except
    (step BackendConfigure ;;
     step BenchmarkRun ;;
     step BenchmarkSave ;;
     step BackendClean ;;
     modify (set_raised_error false))
    (step LogError ;;
     step BackendClean ;;
     modify (set_raised_error true)) ;;
  raised_error ← read_raised_error;
  if (raised_error : bool) then (e ← read_e; raise e) else mret tt.

End Run.

Definition empty_frame : Frame := mkFrame [] None None.

End Main.

(** * Views used by the statements *)

(** The list [ORTBackend.inputs_names] reads off a loaded model: its
    [inputs_names] attribute, else its [input_names] attribute, else []. *)
Definition loaded_inputs_names (pm : Loaded) : list string :=
  match attr_inputs_names pm with
  | Some l => l
  | None => match attr_input_names pm with Some l => l | None => [] end
  end.

(** A value after [.to(dev)] when it is a tensor. *)
Definition on_device (dev : string) (v : InVal) : InVal :=
  match v with Tensor d _ => Tensor d dev | t => t end.

Definition is_tensor (v : InVal) : bool :=
  match v with Tensor _ _ => true | Text _ => false end.

(** The auto presets of an ORT configuration, fixed at [ao], [aq], [ac]. *)
Definition auto_inv (ao aq ac : option string) (s : ORT.S) : Prop :=
  ORT.auto_optimization (config s) = ao /\ ORT.auto_quantization (config s) = aq /\
  ORT.auto_calibration (config s) = ac.

(** An event that applies an optimization, quantization or calibration
    configuration carries the auto variant whenever the preset is set. *)
Definition auto_event (ao aq ac : option string) (ev : Event) : Prop :=
  match ev with
  | EvOptimize oc _ => forall l, ao = Some l -> exists g, oc = OptAuto l g
  | EvQuantize _ _ qc _ => forall p, aq = Some p -> qc = QAuto p
  | EvFit _ cc qc =>
      (forall m, ac = Some m -> cc = CAuto m) /\ (forall p, aq = Some p -> qc = QAuto p)
  | _ => True
  end.

(** [emits I P m]: from a state satisfying [I], [m] ends (normally or by
    an exception) in a state satisfying [I], having only appended events
    satisfying [P] to the trace. *)
Definition emits {C} (I : St C -> Prop) (P : Event -> Prop) {A} (m : M (St C) A) : Prop :=
  forall s r s', I s -> m s = (r, s') ->
  I s' /\ exists new, trace s' = (trace s ++ new)%list /\ Forall P new.

(** * Concrete inputs *)

Module Examples.

Definition bert_loaded : Loaded :=
  mkLoaded ["CPUExecutionProvider"] "/tmp/t/model" None None.

(** A world where every call succeeds, a model directory holds
    [model.onnx], and the workspace is [/tmp/t]. *)
Definition ok_env : Env :=
  mkEnv (fun _ => None) (fun _ => bert_loaded) (fun _ => ["model.onnx"]) (fun _ => true) "/tmp/t".

(** The same world, but [ORTOptimizer.optimize] raises. *)
Definition optimize_fails_env : Env :=
  mkEnv (fun ev => match ev with EvOptimize _ _ => Some "optimization failed" | _ => None end)
    (fun _ => bert_loaded) (fun _ => ["model.onnx"]) (fun _ => true) "/tmp/t".

(** A world whose model directory holds an encoder and a decoder graph. *)
Definition two_graphs_env : Env :=
  mkEnv (fun _ => None) (fun _ => bert_loaded)
    (fun _ => ["encoder_model.onnx"; "decoder_model.onnx"; "config.json"]) (fun _ => true) "/tmp/t".

Definition ort_tasks : list (string * string) :=
  [("text-classification", "ORTModelForSequenceClassification")].
Definition ov_tasks : list (string * string) :=
  [("text-classification", "OVModelForSequenceClassification")].

(** [ORTBackend] configuration: model [bert] with the given provider and
    optimization/quantization/calibration settings. *)
Definition ort_cfg (prov : string) (opt : bool) (aopt : option string) (q : bool)
    (aq : option string) (cal : bool) (acal : option string) : ORT.ORTConfig :=
  ORT.mkORTConfig "bert" true "text-classification" "cpu" "transformers" false prov false []
    opt aopt q aq cal acal.

Definition plain_cfg : ORT.ORTConfig :=
  ort_cfg "CPUExecutionProvider" false None false None false None.
Definition optimized_cfg : ORT.ORTConfig :=
  ort_cfg "CPUExecutionProvider" true None false None false None.
Definition cuda_provider_cfg : ORT.ORTConfig :=
  ort_cfg "CUDAExecutionProvider" false None false None false None.
Definition auto_and_manual_cfg : ORT.ORTConfig :=
  ort_cfg "CPUExecutionProvider" true (Some "O2") true (Some "avx2") false None.
Definition calibrated_cfg : ORT.ORTConfig :=
  ort_cfg "CPUExecutionProvider" false None true None true None.

(** [OVBackend] configuration for [bert] on [device]. *)
Definition ov_cfg (library device : string) (nw : bool) (threads : option Z) : OV.OVConfig :=
  OV.mkOVConfig "bert" false "text-classification" device library nw false false threads ∅.

(** A backend state after the model was loaded: [pretrained_model] is
    [pm], the workspace and the loader class are known. *)
Definition loaded_state {C} (c : C) (pm : Loaded) : St C :=
  set_pretrained_model pm
    (set_model_class "ORTModelForSequenceClassification"
       (set_tmpdir "/tmp/t" (base_init c true true))).

Definition text_inputs : gmap string InVal :=
  <["input_ids" := Tensor 1 "cpu"]> (<["token_type_ids" := Tensor 2 "cpu"]>
    (<["position_ids" := Tensor 3 "cpu"]> ∅)).

Definition prompt_inputs : gmap string InVal :=
  <["prompt" := Text "a cat"]> (<["num_images_per_prompt" := Tensor 1 "cpu"]> ∅).

(** [run_experiment] where [backend.configure] raises [ValueError]. *)
Definition configure_fails : Main.RunEnv :=
  fun st => match st with
            | Main.BackendConfigure => Some (ValueError "unknown backend option")
            | _ => None
            end.

End Examples.

(** ** Further example inputs *)
Module ExtraExamples.
Import Examples.

(** A model directory holding a merged decoder next to the split decoder graphs. *)
Definition decoder_env : Env :=
  mkEnv (fun _ => None) (fun _ => bert_loaded)
    (fun _ => ["decoder_model_merged.onnx"; "decoder_model.onnx"; "decoder_with_past_model.onnx";
               "config.json"])
    (fun _ => true) "/tmp/t".

(** [ORTBackend] configuration exporting a decoder with [use_merged=True]. *)
Definition merged_cfg : ORT.ORTConfig :=
  ORT.mkORTConfig "gpt2" true "text-generation" "cpu" "transformers" false "CPUExecutionProvider"
    true [] false None false None false None.

(** Optimization followed by quantization. *)
Definition opt_quant_cfg : ORT.ORTConfig :=
  ort_cfg "CPUExecutionProvider" true None true None false None.

(** A diffusers pipeline for [ORTBackend]. *)
Definition ort_diffusers_cfg : ORT.ORTConfig :=
  ORT.mkORTConfig "sd" true "text-to-image" "cpu" "diffusers" false "CPUExecutionProvider"
    false [] false None false None false None.

(** [OVBackend] with no weights, quantization and calibration. *)
Definition ov_quant_cfg : OV.OVConfig :=
  OV.mkOVConfig "bert" false "text-classification" "cpu" "transformers" true true true None ∅.

Definition merged_state : ORT.S := loaded_state merged_cfg bert_loaded.

(** Runs of the backend code on these inputs. *)
Definition ort_nw_run : (exn + unit) * ORT.S :=
  ORT.load_ortmodel_with_no_weights ok_env (loaded_state plain_cfg bert_loaded).
Definition calibrated_files_run : (exn + unit) * ORT.S :=
  ORT.quantize_files ok_env calibrated_cfg "/tmp/t/quantized_model" (Some QManual) (Some CManual)
    ["model.onnx"] (loaded_state calibrated_cfg bert_loaded).
Definition opt_quant_run : (exn + unit) * ORT.S :=
  ORT.transform_stages ok_env (loaded_state opt_quant_cfg bert_loaded).
Definition ort_backend_run : (exn + unit) * ORT.S :=
  ORT.ORTBackend ok_env ort_tasks [] optimized_cfg true true.
Definition ov_backend_run : (exn + unit) * OV.S :=
  OV.OVBackend ok_env ov_tasks (ov_cfg "transformers" "cpu" false (Some 4%Z)) true true.
Definition ov_quant_run : (exn + unit) * OV.S :=
  OV.load_model ok_env (loaded_state ov_quant_cfg bert_loaded).

(** Inputs holding a raw text value under a model input name. *)
Definition raw_text_inputs : gmap string InVal :=
  <["input_ids" := Text "a cat"]> ∅.

(** [run_experiment] where [OmegaConf.save] raises. *)
Definition save_fails : Main.RunEnv :=
  fun st => match st with
            | Main.SaveConfig => Some (ValueError "cannot write the configuration")
            | _ => None
            end.

(** [run_experiment] interrupted from the keyboard during [benchmark.run]. *)
Definition run_interrupted : Main.RunEnv :=
  fun st => match st with
            | Main.BenchmarkRun => Some KeyboardInterrupt
            | _ => None
            end.

End ExtraExamples.

(** * Reasoning about the monad *)

Open Scope list_scope.

Section MonadFacts.
Context {S : Type}.

Lemma bind_run {A B} (m : M S A) (k : A -> M S B) (s : S) :
  (m ≫= k) s = match m s with
               | (inl e, s') => (inl e, s')
               | (inr a, s') => k a s'
               end.
Proof. reflexivity. Qed.

Lemma bind_inr {A B} (m : M S A) (k : A -> M S B) (s : S) (b : B) (s' : S) :
  (m ≫= k) s = (inr b, s') ->
  exists a s1, m s = (inr a, s1) /\ k a s1 = (inr b, s').
Proof. rewrite bind_run. destruct (m s) as [[e|a] s1]; [discriminate|eauto]. Qed.

Lemma bind_inl {A B} (m : M S A) (k : A -> M S B) (s : S) (e : exn) (s' : S) :
  m s = (inl e, s') -> (m ≫= k) s = (inl e, s').
Proof. intros H. rewrite bind_run, H. reflexivity. Qed.

Lemma bind_assoc_run {A B D} (m : M S A) (k1 : A -> M S B) (k2 : B -> M S D) (s : S) :
  ((m ≫= k1) ≫= k2) s = (m ≫= (fun a => k1 a ≫= k2)) s.
Proof. rewrite !bind_run. destruct (m s) as [[e|a] s1]; reflexivity. Qed.

Lemma bind_ok {A B} (m : M S A) (k : A -> M S B) (s : S) (a : A) (s1 : S) :
  m s = (inr a, s1) -> (m ≫= k) s = k a s1.
Proof. intros H. rewrite bind_run, H. reflexivity. Qed.

Lemma ret_inr {A} (x a : A) (s s1 : S) : (mret x : M S A) s = (inr a, s1) -> a = x /\ s1 = s.
Proof. intros H. by injection H as <- <-. Qed.

Lemma modify_inr (f : S -> S) (s : S) a (s1 : S) : modify f s = (inr a, s1) -> s1 = f s.
Proof. intros H. by injection H as _ <-. Qed.

Lemma raise_inr {A} e (a : A) (s s1 : S) : (raise e : M S A) s = (inr a, s1) -> False.
Proof. discriminate. Qed.

End MonadFacts.

Section RunFacts.
Context {C : Type}.

Lemma get_config_inr (s : St C) a s1 : get_config s = (inr a, s1) -> a = config s /\ s1 = s.
Proof. intros H. by injection H as <- <-. Qed.

Lemma attr_inr {A} (f : St C -> option A) n (s : St C) a s1 :
  attr f n s = (inr a, s1) -> f s = Some a /\ s1 = s.
Proof. unfold attr. intros H. destruct (f s); inversion H; subst; auto. Qed.

Lemma call_inr (env : Env) ev (s : St C) a s1 :
  call env ev s = (inr a, s1) -> env_fail env ev = None /\ s1 = add_event ev s.
Proof. unfold call. intros H. destruct (env_fail env ev); inversion H; subst; auto. Qed.

End RunFacts.

(** Take apart a successful run, one bind at a time. *)
Ltac inv_run :=
  repeat match goal with
  | H : mbind _ _ _ = (inr _, _) |- _ =>
      apply bind_inr in H; destruct H as (? & ? & ? & H)
  | H : get_config _ = (inr _, _) |- _ => apply get_config_inr in H as [? ?]; subst
  | H : put_config _ _ = (inr _, _) |- _ => apply modify_inr in H; subst
  | H : modify _ _ = (inr _, _) |- _ => apply modify_inr in H; subst
  | H : call _ _ _ = (inr _, _) |- _ => apply call_inr in H as [? ?]; subst
  | H : attr _ _ _ = (inr _, _) |- _ => apply attr_inr in H as [? ?]; subst
  | H : mret _ _ = (inr _, _) |- _ => apply ret_inr in H as [? ?]; subst
  | H : raise _ _ = (inr _, _) |- _ => destruct (raise_inr _ _ _ _ H)
  | H : (if ?b then _ else _) _ = (inr _, _) |- _ => destruct b eqn:?
  | H : (fun _ => _) _ _ = (inr _, _) |- _ => cbv beta in H
  | H : (let _ := _ in _) _ = (inr _, _) |- _ => cbv zeta in H
  end.

(** Rules for [emits]. *)
Section Emits.
Context {C : Type}.
Implicit Types (I : St C -> Prop) (P : Event -> Prop).

Lemma emits_ret I P {A} (a : A) : emits I P (mret a).
Proof.
  intros s r s' HI Hrun. injection Hrun as <- <-.
  split; [done|]. exists []. rewrite app_nil_r. done.
Qed.

Lemma emits_raise I P {A} (e : exn) : emits I P (raise (A:=A) e).
Proof.
  intros s r s' HI Hrun. injection Hrun as <- <-.
  split; [done|]. exists []. rewrite app_nil_r. done.
Qed.

Lemma emits_attr I P {A} (f : St C -> option A) (n : string) : emits I P (attr f n).
Proof.
  intros s r s' HI Hrun. unfold attr in Hrun.
  destruct (f s); injection Hrun as <- <-;
    (split; [done|]; exists []; rewrite app_nil_r; done).
Qed.

Lemma emits_bind I P {A B} (m : M (St C) A) (k : A -> M (St C) B) :
  emits I P m -> (forall a, emits I P (k a)) -> emits I P (m ≫= k).
Proof.
  intros Hm Hk s r s' HI Hrun. rewrite bind_run in Hrun.
  destruct (m s) as [[e|a] s1] eqn:E.
  - injection Hrun as <- <-. exact (Hm _ _ _ HI E).
  - destruct (Hm _ _ _ HI E) as [HI1 (new1 & Ht1 & Hp1)].
    destruct (Hk a _ _ _ HI1 Hrun) as [HI2 (new2 & Ht2 & Hp2)].
    split; [done|]. exists (new1 ++ new2).
    rewrite Ht2, Ht1, app_assoc. split; [done|]. by apply Forall_app.
Qed.

Lemma emits_get_config_bind I P {A} (k : C -> M (St C) A) :
  (forall s, I s -> emits I P (k (config s))) -> emits I P (get_config ≫= k).
Proof. intros Hk s r s' HI Hrun. exact (Hk s HI s r s' HI Hrun). Qed.

Lemma emits_get_bind I P {A} (k : St C -> M (St C) A) :
  (forall s, I s -> emits I P (k s)) -> emits I P (get ≫= k).
Proof. intros Hk s r s' HI Hrun. exact (Hk s HI s r s' HI Hrun). Qed.

Lemma emits_attr_bind I P {A B} (f : St C -> option A) (n : string) (k : A -> M (St C) B) :
  (forall s a, I s -> f s = Some a -> emits I P (k a)) -> emits I P (attr f n ≫= k).
Proof.
  intros Hk s r s' HI Hrun. rewrite bind_run in Hrun. unfold attr in Hrun.
  destruct (f s) as [a|] eqn:E.
  - exact (Hk s a HI E s r s' HI Hrun).
  - injection Hrun as <- <-. split; [done|]. exists []. rewrite app_nil_r. done.
Qed.

Lemma emits_modify I P (f : St C -> St C) :
  (forall s, I s -> I (f s) /\ trace (f s) = trace s) -> emits I P (modify f).
Proof.
  intros Hf s r s' HI Hrun. injection Hrun as <- <-.
  destruct (Hf s HI) as [HI' Ht]. split; [done|].
  exists []. rewrite app_nil_r. done.
Qed.

Lemma emits_call (env : Env) I P (ev : Event) :
  P ev -> (forall s, I s -> I (add_event ev s)) -> emits I P (call env ev).
Proof.
  intros HP HI' s r s' HI Hrun. unfold call in Hrun.
  destruct (env_fail env ev); injection Hrun as <- <-;
    (split; [by apply HI'|]; exists [ev]; split; [done|]; by constructor).
Qed.

Lemma emits_snd I P {A} (m : M (St C) A) (s : St C) :
  emits I P m -> I s ->
  I (m s).2 /\ exists new, trace (m s).2 = trace s ++ new /\ Forall P new.
Proof. intros Hm HI. destruct (m s) as [r s'] eqn:E. exact (Hm _ _ _ HI E). Qed.

Lemma emits_keeps_config {A} (m : M (St C) A) (s : St C) r (s' : St C) :
  (forall c0, emits (fun s => config s = c0) (fun _ => True) m) ->
  m s = (r, s') -> config s' = config s.
Proof. intros Hm Hrun. exact (proj1 (Hm (config s) s r s' eq_refl Hrun)). Qed.

Lemma emits_weaken I P P' {A} (m : M (St C) A) :
  (forall ev, P ev -> P' ev) -> emits I P m -> emits I P' m.
Proof.
  intros HPP Hm s r s' HI Hrun. destruct (Hm _ _ _ HI Hrun) as [HI' (new & Ht & Hp)].
  split; [done|]. exists new. split; [done|]. eapply Forall_impl; eauto.
Qed.

Lemma emits_bind_ret I P {A B} (m : M (St C) A) (k : A -> M (St C) B) (Q : A -> Prop) :
  emits I P m -> (forall s a s', I s -> m s = (inr a, s') -> Q a) ->
  (forall a, Q a -> emits I P (k a)) -> emits I P (m ≫= k).
Proof.
  intros Hm HQ Hk s r s' HI Hrun. rewrite bind_run in Hrun.
  destruct (m s) as [[e|a] s1] eqn:E.
  - injection Hrun as <- <-. exact (Hm _ _ _ HI E).
  - destruct (Hm _ _ _ HI E) as [HI1 (new1 & Ht1 & Hp1)].
    destruct (Hk a (HQ _ _ _ HI E) _ _ _ HI1 Hrun) as [HI2 (new2 & Ht2 & Hp2)].
    split; [done|]. exists (new1 ++ new2).
    rewrite Ht2, Ht1, app_assoc. split; [done|]. by apply Forall_app.
Qed.

End Emits.

Ltac emits_step :=
  match goal with
  | |- emits _ _ (mbind _ get_config) => apply emits_get_config_bind; intros ?s ?HI
  | |- emits _ _ (mbind _ get) => apply emits_get_bind; intros ?s ?HI
  | |- emits _ _ (mbind _ (attr _ _)) => apply emits_attr_bind; intros ?s ?a ?HI ?Ha
  | |- emits _ _ (mbind _ _) => apply emits_bind; [|intros ?]
  | |- emits _ _ (mret _) => apply emits_ret
  | |- emits _ _ (raise _) => apply emits_raise
  | |- emits _ _ (attr _ _) => apply emits_attr
  | |- emits _ _ (modify _) => apply emits_modify
  | |- emits _ _ (put_config _) => apply emits_modify
  | |- emits _ _ (call _ _) => apply emits_call
  | |- emits _ _ (if ?b then _ else _) => destruct b
  | |- emits _ _ (match ?x with _ => _ end) => destruct x
  | |- emits _ _ (let _ := _ in _) => cbv zeta
  end.

(** * The onnxruntime backend *)

Module ORTFacts.
Import ORT.

Section Facts.
Variable env : Env.
Variables TASKS_TO_ORTSD TASKS_TO_ORTMODELS : list (string * string).

Lemma set_session_options_emits (I : S -> Prop) (P : Event -> Prop) keys :
  (forall k, P (EvSessionOption k)) ->
  (forall ev s, I s -> I (add_event ev s)) ->
  emits I P (set_session_options env keys).
Proof.
  intros HP HI. induction keys as [|k ks IH]; simpl.
  - apply emits_ret.
  - apply emits_bind; [apply emits_call; auto|intros _; exact IH].
Qed.

Lemma quantize_files_emits (I : S -> Prop) (P : Event -> Prop) c qd qc cc files :
  (forall f, P (EvQuantizerCreate (model c) f)) ->
  (forall f cc' qc', cc = Some cc' -> qc = Some qc' -> P (EvFit f cc' qc')) ->
  (forall f qc', qc = Some qc' -> P (EvQuantize f qd qc' (is_calibrated c))) ->
  (forall ev s, I s -> I (add_event ev s)) ->
  emits I P (quantize_files env c qd qc cc files).
Proof.
  intros Hc Hf Hq HI. induction files as [|f fs IH]; simpl.
  - apply emits_ret.
  - repeat emits_step; eauto.
Qed.

Ltac ort_unfold :=
  unfold ort_setup, transform_stages, optimize_onnx_files, quantize_onnx_files,
    load_ortmodel_with_no_weights, create_no_weights_model,
    load_ortmodel_from_pretrained, validate_task, tmpdir_create, onnx_files_names,
    inputs_names, save_metadata, set_config_model, set_config_export.

Ltac ort_emits :=
  repeat (emits_step || apply set_session_options_emits || apply quantize_files_emits).

(** Nothing before [validate_provider] cleans the workspace. *)
Lemma ort_setup_no_cleanup :
  emits (fun _ => True) (fun ev => ev <> EvTmpCleanup)
    (ort_setup env TASKS_TO_ORTSD TASKS_TO_ORTMODELS).
Proof. ort_unfold. ort_emits; intros; try split; try done. Qed.

Lemma setup_trace_no_cleanup (c : ORTConfig) pconf pproc r s1 :
  ort_setup env TASKS_TO_ORTSD TASKS_TO_ORTMODELS (base_init c pconf pproc) = (r, s1) ->
  EvTmpCleanup ∉ trace s1.
Proof.
  intros Hrun. destruct (ort_setup_no_cleanup _ _ _ I Hrun) as [_ (new & Ht & Hp)].
  rewrite Ht. simpl. intros Hin. rewrite Forall_forall in Hp. by apply (Hp _ Hin).
Qed.

(** After the final load, [validate_provider] raises [ValueError] exactly
    when the first provider differs from [config.provider], and the
    [self.tmpdir.cleanup()] after it then never runs. *)
Theorem provider_mismatch_skips_cleanup (c : ORTConfig) (pconf pproc : bool) (s1 : S)
    (pm : Loaded) (p : string) (ps : list string) :
  ort_setup env TASKS_TO_ORTSD TASKS_TO_ORTMODELS (base_init c pconf pproc) = (inr tt, s1) ->
  pretrained_model s1 = Some pm ->
  providers pm = p :: ps ->
  ((exists msg, ORTBackend env TASKS_TO_ORTSD TASKS_TO_ORTMODELS c pconf pproc
                = (inl (ValueError msg), s1)) <-> p <> provider (config s1)) /\
  (p <> provider (config s1) ->
   EvTmpCleanup ∉ trace (ORTBackend env TASKS_TO_ORTSD TASKS_TO_ORTMODELS c pconf pproc).2).
Proof.
  intros Hsetup Hpm Hprov.
  assert (Hno := setup_trace_no_cleanup _ _ _ _ _ Hsetup).
  unfold ORTBackend, ort_init. rewrite (bind_ok _ _ _ _ _ Hsetup).
  unfold validate_provider. rewrite !bind_run. unfold attr. rewrite Hpm.
  simpl. rewrite Hprov, bind_run. simpl.
  destruct (String.eqb_spec p (provider (config s1))) as [Heq|Hne].
  - split; [|done]. split.
    + intros [msg Hrun]. unfold tmpdir_cleanup, call in Hrun.
      destruct (env_fail env EvTmpCleanup); discriminate.
    + done.
  - split.
    + split; [intros _; exact Hne|intros _; eexists; reflexivity].
    + intros _. exact Hno.
Qed.

Lemma ort_unsupported (c : ORTConfig) (pconf pproc : bool) :
  assoc (task c) TASKS_TO_ORTSD = None ->
  assoc (task c) TASKS_TO_ORTMODELS = None ->
  ORTBackend env TASKS_TO_ORTSD TASKS_TO_ORTMODELS c pconf pproc
  = (inl (NotImplementedError ("ORTBackend does not support task " ++ task c)),
     base_init c pconf pproc).
Proof.
  intros H1 H2. unfold ORTBackend, ort_init, ort_setup, validate_task.
  rewrite !bind_run. simpl. rewrite H1, H2. reflexivity.
Qed.

Lemma ort_validate_task_ok (c : ORTConfig) (pconf pproc : bool) (n : string) :
  (assoc (task c) TASKS_TO_ORTSD = Some n \/
   assoc (task c) TASKS_TO_ORTSD = None /\ assoc (task c) TASKS_TO_ORTMODELS = Some n) ->
  env_fail env (EvGetClass n) = None ->
  validate_task env TASKS_TO_ORTSD TASKS_TO_ORTMODELS (base_init c pconf pproc)
  = (inr tt, set_model_class n (add_event (EvGetClass n) (base_init c pconf pproc))).
Proof.
  intros Hn Hf. unfold validate_task. rewrite bind_run. simpl.
  destruct Hn as [H1|[H1 H2]]; rewrite H1; [|rewrite H2];
    rewrite bind_run; unfold call; simpl; rewrite Hf; reflexivity.
Qed.

(** Every model load after [validate_task] uses the cached class. *)
Lemma ort_rest_loads_cached_class (n : string) :
  emits (fun s => model_class s = Some n)
    (fun ev => forall cls m e p, ev = EvLoad cls m e p -> cls = n)
    ((c ← get_config;
      set_session_options env (session_options c) ;;
      tmpdir_create env ;;
      c' ← get_config;
      (if no_weights c' then load_ortmodel_with_no_weights env
       else load_ortmodel_from_pretrained env) ;;
      transform_stages env) ;;
     validate_provider ;;
     tmpdir_cleanup env).
Proof.
  ort_unfold. unfold validate_provider, tmpdir_cleanup.
  ort_emits; intros; simplify_eq/=; try split; try congruence; auto.
Qed.

Lemma ort_supported_caches (c : ORTConfig) (pconf pproc : bool) (n : string) :
  (assoc (task c) TASKS_TO_ORTSD = Some n \/
   assoc (task c) TASKS_TO_ORTSD = None /\ assoc (task c) TASKS_TO_ORTMODELS = Some n) ->
  env_fail env (EvGetClass n) = None ->
  let s' := (ORTBackend env TASKS_TO_ORTSD TASKS_TO_ORTMODELS c pconf pproc).2 in
  model_class s' = Some n /\
  forall cls m e p, EvLoad cls m e p ∈ trace s' -> cls = n.
Proof.
  intros Hn Hf s'. subst s'.
  unfold ORTBackend, ort_init, ort_setup.
  rewrite bind_assoc_run, (bind_ok _ _ _ _ _ (ort_validate_task_ok _ _ _ _ Hn Hf)).
  destruct (emits_snd _ _ _
              (set_model_class n (add_event (EvGetClass n) (base_init c pconf pproc)))
              (ort_rest_loads_cached_class n) eq_refl) as [HI (new & Ht & Hp)].
  split; [exact HI|].
  intros cls m e p Hin. rewrite Ht in Hin. simpl in Hin.
  apply elem_of_cons in Hin as [Hin|Hin]; [discriminate|].
  rewrite Forall_forall in Hp. exact (Hp _ Hin cls m e p eq_refl).
Qed.


Lemma optimize_keeps_config (c0 : ORTConfig) :
  emits (fun s => config s = c0) (fun _ => True) (optimize_onnx_files env).
Proof. ort_unfold. ort_emits; intros; simplify_eq/=; try split; auto. Qed.

Lemma quantize_keeps_config (c0 : ORTConfig) :
  emits (fun s => config s = c0) (fun _ => True) (quantize_onnx_files env).
Proof. ort_unfold. ort_emits; intros; simplify_eq/=; try split; auto. Qed.

Lemma load_keeps_config (c0 : ORTConfig) :
  emits (fun s => config s = c0) (fun _ => True) (load_ortmodel_from_pretrained env).
Proof. ort_unfold. ort_emits; intros; simplify_eq/=; try split; auto. Qed.

Lemma is_optimized_set_model m c : is_optimized (set_model m c) = is_optimized c.
Proof. done. Qed.
Lemma is_quantized_set_model m c : is_quantized (set_model m c) = is_quantized c.
Proof. done. Qed.
Lemma is_optimized_set_export b c : is_optimized (set_export b c) = is_optimized c.
Proof. done. Qed.
Lemma is_quantized_set_export b c : is_quantized (set_export b c) = is_quantized c.
Proof. done. Qed.
Lemma export_set_model m c : export (set_model m c) = export c.
Proof. done. Qed.
Lemma set_model_set_export m b c : set_model m (set_export b c) = set_export b (set_model m c).
Proof. by destruct c. Qed.
Lemma set_model_set_model m m' c : set_model m (set_model m' c) = set_model m c.
Proof. by destruct c. Qed.
Lemma set_export_set_export b b' c : set_export b (set_export b' c) = set_export b c.
Proof. by destruct c. Qed.
Lemma set_model_model c : set_model (model c) c = c.
Proof. by destruct c. Qed.
Lemma set_export_export c : set_export (export c) c = c.
Proof. by destruct c. Qed.

(** When the Optimize/Quantize block of [__init__] and its reload finish
    without raising, [config.model] and [config.export] are back to their
    values before the block. *)
Lemma transform_stages_restores (s s' : S) :
  transform_stages env s = (inr tt, s') -> config s' = config s.
Proof.
  unfold transform_stages, set_config_model, set_config_export. intros Hrun.
  inv_run;
    repeat match goal with
    | H : optimize_onnx_files env _ = _ |- _ =>
        apply (emits_keeps_config _ _ _ _ optimize_keeps_config) in H
    | H : quantize_onnx_files env _ = _ |- _ =>
        apply (emits_keeps_config _ _ _ _ quantize_keeps_config) in H
    | H : load_ortmodel_from_pretrained env _ = _ |- _ =>
        apply (emits_keeps_config _ _ _ _ load_keeps_config) in H
    end; simpl in *;
    repeat match goal with H : config ?x = _ |- context [config ?x] => rewrite H end;
    repeat match goal with H : config ?x = _, H' : context [config ?x] |- _ => rewrite H in H' end;
    rewrite ?is_optimized_set_model, ?is_quantized_set_model,
      ?is_optimized_set_export, ?is_quantized_set_export in *;
    try congruence;
    rewrite ?export_set_model, ?set_model_set_export, ?set_model_set_model,
      ?set_export_set_export, ?set_model_model, ?set_export_export; reflexivity.
Qed.

(** With calibration requested and more than one ONNX file in the model
    directory, [quantize_onnx_files] raises [NotImplementedError] right
    after recording [quantized_model]: no event is added to the trace. *)
Lemma calibrated_multi_raises (s : S) (tmp : string) (files : list string) :
  tmpdir s = Some tmp ->
  is_calibrated (config s) = true ->
  onnx_files_names env s = (inr files, s) ->
  (1 < List.length files)%nat ->
  quantize_onnx_files env s
  = (inl (NotImplementedError
            ("Calibrated/Static Quantization is not supported for models with multiple components. "
             ++ "Found " ++ pretty (List.length files) ++ " components.")),
     set_quantized_model (path_join tmp "quantized_model") s).
Proof.
  intros Ht Hc Hf Hn. unfold quantize_onnx_files.
  rewrite bind_run. unfold attr at 1. rewrite Ht. simpl.
  rewrite bind_run. simpl.
  rewrite bind_run. unfold get_config at 1.
  replace (config (set_quantized_model (path_join tmp "quantized_model") s)) with (config s) by done.
  rewrite Hc, bind_run.
  assert (Hf' : onnx_files_names env (set_quantized_model (path_join tmp "quantized_model") s)
                = (inr files, set_quantized_model (path_join tmp "quantized_model") s)).
  { revert Hf. unfold onnx_files_names. rewrite !bind_run. simpl.
    destruct (env_isdir env (model (config s))); [|discriminate].
    destruct (use_merged (config s)); intros H; injection H as <-; reflexivity. }
  rewrite (bind_run (onnx_files_names env)), Hf'. simpl.
  apply Nat.ltb_lt in Hn. rewrite Hn. reflexivity.
Qed.

Lemma optimize_auto_events ao aq ac :
  emits (auto_inv ao aq ac) (auto_event ao aq ac) (optimize_onnx_files env).
Proof.
  unfold optimize_onnx_files, onnx_files_names, save_metadata, auto_inv.
  repeat (match goal with
          | |- emits _ _ (match ?x with _ => _ end) => destruct x eqn:?
          end || emits_step);
    intros; simplify_eq/=; try tauto.
  intros l ->. destruct HI0 as (Hao & _ & _). rewrite Hao in *. simplify_eq/=. eauto.
Qed.

Lemma quantize_auto_events ao aq ac :
  emits (auto_inv ao aq ac) (auto_event ao aq ac) (quantize_onnx_files env).
Proof.
  unfold quantize_onnx_files.
  apply emits_attr_bind; intros s tmp HI _. cbv zeta.
  apply emits_bind; [apply emits_modify; intros s0 H0; by split|intros _].
  apply emits_get_config_bind; intros s1 HI1.
  destruct HI1 as (Hao & Haq & Hac). subst ao aq ac.
  apply emits_bind.
  { unfold onnx_files_names. repeat emits_step; intros; simplify_eq/=; tauto. }
  intros _.
  (* the calibration configuration the block returns is the auto one *)
  apply (emits_bind_ret _ _ _ _
           (fun cc => forall cc', cc = Some cc' ->
                      forall m, auto_calibration (config s1) = Some m -> cc' = CAuto m)).
  { unfold inputs_names. repeat emits_step; intros; simplify_eq/=; tauto. }
  { intros s2 cc s2' _ Hrun.
    destruct (is_calibrated (config s1)); inv_run; intros cc' Hcc m Hm;
      [rewrite Hm in Hcc; by simplify_eq|discriminate]. }
  intros cc Hcc. apply emits_bind.
  { unfold onnx_files_names. repeat emits_step; intros; simplify_eq/=; tauto. }
  intros files. apply emits_bind.
  { apply quantize_files_emits; simpl.
    - done.
    - intros f cc' qc' Hc Hq. split; [intros m Hm; exact (Hcc cc' Hc m Hm)|].
      intros p Hp. rewrite Hp in Hq. by simplify_eq.
    - intros f qc' Hq p Hp. rewrite Hp in Hq. by simplify_eq.
    - intros ev s3 H3. exact H3. }
  intros _. unfold save_metadata. repeat emits_step; intros; simplify_eq/=; tauto.
Qed.

(** The whole of [__init__] after [super().__init__] keeps the auto
    presets and applies only auto configurations where a preset is set. *)
Lemma ort_init_auto_events ao aq ac :
  emits (auto_inv ao aq ac) (auto_event ao aq ac)
    (ort_init env TASKS_TO_ORTSD TASKS_TO_ORTMODELS).
Proof.
  unfold ort_init, validate_provider, tmpdir_cleanup, ort_setup, transform_stages,
    load_ortmodel_with_no_weights, create_no_weights_model,
    load_ortmodel_from_pretrained, validate_task, tmpdir_create,
    set_config_model, set_config_export.
  repeat (apply optimize_auto_events || apply quantize_auto_events || emits_step
          || apply set_session_options_emits);
    unfold auto_inv in *; intros; simplify_eq/=; tauto.
Qed.

End Facts.
End ORTFacts.

(** * The openvino backend *)

Module OVFacts.
Import OV.

Section Facts.
Variable env : Env.
Variable TASKS_TO_OVMODEL : list (string * string).

Lemma set_model_export (c : OVConfig) : set_model (model c) (set_export (export c) c) = c.
Proof. by destruct c. Qed.

Lemma no_weights_load_restores (s s' : S) (tmp : string) :
  tmpdir s = Some tmp ->
  load_ovmodel_with_no_weights env s = (inr tt, s') ->
  config s' = config s /\
  exists cls, EvLoadOV cls (path_join tmp "no_weights_model") true (device (config s)) ∈ trace s'.
Proof.
  intros Htmp Hrun.
  unfold load_ovmodel_with_no_weights, create_no_weights_model, set_config_model,
    set_config_export, load_ovmodel_from_pretrained in Hrun.
  inv_run; simplify_eq/=; (split; [by destruct (config s)|]);
    eexists; rewrite elem_of_app; right; by apply list_elem_of_singleton.
Qed.

Ltac ov_unfold :=
  unfold ov_init, load_model, quantize_stage, load_ovmodel_with_no_weights,
    load_automodel_with_no_weights, create_no_weights_model,
    load_automodel_from_pretrained, load_ovmodel_from_pretrained, quantize_automodel,
    apply_inter_op_num_threads, validate_task, tmpdir_create, tmpdir_cleanup,
    set_config_model, set_config_export.

(** A successful no-weights load of the auto model leaves the
    configuration as it found it. *)
Lemma automodel_nw_restores (s s' : S) a :
  load_automodel_with_no_weights env s = (inr a, s') -> config s' = config s.
Proof.
  unfold load_automodel_with_no_weights, create_no_weights_model, load_automodel_from_pretrained,
    set_config_model. intros Hrun. inv_run; simplify_eq/=; by destruct (config s).
Qed.

Lemma automodel_keeps_config (c0 : OVConfig) :
  emits (fun s => config s = c0) (fun _ => True) (load_automodel_from_pretrained env).
Proof. unfold load_automodel_from_pretrained. repeat emits_step; intros; simplify_eq/=; try split; auto. Qed.
Lemma quantize_automodel_keeps_config (c0 : OVConfig) :
  emits (fun s => config s = c0) (fun _ => True) (quantize_automodel env).
Proof. unfold quantize_automodel. repeat emits_step; intros; simplify_eq/=; try split; auto. Qed.
Lemma ovmodel_keeps_config (c0 : OVConfig) :
  emits (fun s => config s = c0) (fun _ => True) (load_ovmodel_from_pretrained env).
Proof. unfold load_ovmodel_from_pretrained. repeat emits_step; intros; simplify_eq/=; try split; auto. Qed.

(** A successful Quantize stage (with its reload) leaves the
    configuration as it found it. *)
Lemma quantize_stage_restores (s s' : S) :
  quantize_stage env s = (inr tt, s') -> config s' = config s.
Proof.
  unfold quantize_stage, set_config_model, set_config_export. intros Hrun.
  inv_run;
    repeat match goal with
    | H : load_automodel_with_no_weights env _ = _ |- _ => apply automodel_nw_restores in H
    | H : load_automodel_from_pretrained env _ = _ |- _ =>
        apply (emits_keeps_config _ _ _ _ automodel_keeps_config) in H
    | H : quantize_automodel env _ = _ |- _ =>
        apply (emits_keeps_config _ _ _ _ quantize_automodel_keeps_config) in H
    | H : load_ovmodel_from_pretrained env _ = _ |- _ =>
        apply (emits_keeps_config _ _ _ _ ovmodel_keeps_config) in H
    end; simpl in *.
  all: repeat match goal with H : config ?x = _ |- context [config ?x] => rewrite H end;
    unfold set_export, set_model; by destruct (config s).
Qed.

Lemma ov_unsupported (c : OVConfig) (pconf pproc : bool) :
  assoc (task c) TASKS_TO_OVMODEL = None ->
  OVBackend env TASKS_TO_OVMODEL c pconf pproc
  = (inl (NotImplementedError ("OVBackend does not support task " ++ task c)),
     base_init c pconf pproc).
Proof.
  intros H. unfold OVBackend, ov_init, validate_task.
  rewrite !bind_run. simpl. rewrite H. reflexivity.
Qed.

Lemma ov_validate_task_ok (c : OVConfig) (pconf pproc : bool) (n : string) :
  assoc (task c) TASKS_TO_OVMODEL = Some n ->
  env_fail env (EvGetClass n) = None ->
  validate_task env TASKS_TO_OVMODEL (base_init c pconf pproc)
  = (inr tt, set_model_class n (add_event (EvGetClass n) (base_init c pconf pproc))).
Proof.
  intros Hn Hf. unfold validate_task. rewrite bind_run. simpl. rewrite Hn.
  rewrite bind_run. unfold call. simpl. rewrite Hf. reflexivity.
Qed.

(** Every OV model load after [validate_task] uses the cached class. *)
Lemma ov_rest_loads_cached_class (n : string) :
  emits (fun s => model_class s = Some n)
    (fun ev => forall cls m e d, ev = EvLoadOV cls m e d -> cls = n)
    (apply_inter_op_num_threads ;; tmpdir_create env ;; load_model env ;; tmpdir_cleanup env).
Proof.
  ov_unfold. repeat emits_step; intros; simplify_eq/=; try split; try congruence; auto.
Qed.

Lemma ov_supported_caches (c : OVConfig) (pconf pproc : bool) (n : string) :
  assoc (task c) TASKS_TO_OVMODEL = Some n ->
  env_fail env (EvGetClass n) = None ->
  let s' := (OVBackend env TASKS_TO_OVMODEL c pconf pproc).2 in
  model_class s' = Some n /\
  forall cls m e d, EvLoadOV cls m e d ∈ trace s' -> cls = n.
Proof.
  intros Hn Hf s'. subst s'. unfold OVBackend, ov_init.
  rewrite (bind_ok _ _ _ _ _ (ov_validate_task_ok _ _ _ _ Hn Hf)). cbv beta.
  destruct (emits_snd _ _ _
              (set_model_class n (add_event (EvGetClass n) (base_init c pconf pproc)))
              (ov_rest_loads_cached_class n) eq_refl) as [HI (new & Ht & Hp)].
  split; [exact HI|].
  intros cls m e d Hin. rewrite Ht in Hin. simpl in Hin.
  apply elem_of_cons in Hin as [Hin|Hin]; [discriminate|].
  rewrite Forall_forall in Hp. exact (Hp _ Hin cls m e d eq_refl).
Qed.

(** Nothing after line 39 touches [openvino_config]. *)
Lemma ov_rest_keeps_openvino_config (D : gmap string ovval) :
  emits (fun s => openvino_config (config s) = D) (fun _ => True)
    (tmpdir_create env ;; load_model env ;; tmpdir_cleanup env).
Proof.
  ov_unfold. repeat emits_step; intros; simplify_eq/=; try split; auto.
Qed.

Lemma ov_threads_persist (c : OVConfig) (pconf pproc : bool) (n : Z) (cls : string) :
  inter_op_num_threads c = Some n ->
  assoc (task c) TASKS_TO_OVMODEL = Some cls ->
  env_fail env (EvGetClass cls) = None ->
  openvino_config (config (OVBackend env TASKS_TO_OVMODEL c pconf pproc).2)
  = <[inference_num_threads := OVInt n]> (openvino_config c).
Proof.
  intros Hn Hcls Hf. unfold OVBackend, ov_init.
  rewrite (bind_ok _ _ _ _ _ (ov_validate_task_ok _ _ _ _ Hcls Hf)). cbv beta.
  set (s1 := set_model_class cls (add_event (EvGetClass cls) (base_init c pconf pproc))).
  set (D := <[inference_num_threads := OVInt n]> (openvino_config c)).
  assert (Hthr : apply_inter_op_num_threads s1
                 = (inr tt, set_config (set_openvino_config D c) s1)).
  { unfold apply_inter_op_num_threads. rewrite bind_run. simpl. rewrite Hn. reflexivity. }
  rewrite (bind_ok _ _ _ _ _ Hthr). cbv beta.
  destruct (emits_snd _ _ _ (set_config (set_openvino_config D c) s1)
              (ov_rest_keeps_openvino_config D) eq_refl) as [HI _].
  exact HI.
Qed.

End Facts.
End OVFacts.


(** * Input preparation *)

Module PrepareFacts.

Section ORTInputs.
Import ORT.

Lemma inputs_names_run (s : S) pm :
  pretrained_model s = Some pm -> inputs_names s = (inr (loaded_inputs_names pm), s).
Proof.
  intros H. unfold inputs_names, loaded_inputs_names.
  rewrite bind_run. unfold attr at 1. rewrite H. simpl.
  by destruct (attr_inputs_names pm), (attr_input_names pm).
Qed.

Lemma prepare_loop_spec dev pm items acc (s : S) :
  pretrained_model s = Some pm ->
  NoDup items.*1 ->
  Forall (fun kv => mem kv.1 PROBLEMATIC_INPUTS = false -> is_tensor kv.2 = true) items ->
  exists out, prepare_loop dev items acc s = (inr out, s) /\
   forall k, out !! k =
     match (list_to_map items : gmap string InVal) !! k with
     | Some v => if mem k PROBLEMATIC_INPUTS
                 then (if mem k (loaded_inputs_names pm) then acc !! k else None)
                 else Some (on_device dev v)
     | None => acc !! k
     end.
Proof.
  intros Hpm. revert acc.
  induction items as [|[k0 v0] rest IH]; intros acc Hnd Hf.
  - exists acc. split; [done|]. intros k.
    replace (list_to_map [] : gmap string InVal) with (∅ : gmap string InVal) by done.
    by rewrite lookup_empty.
  - simpl in Hnd. apply NoDup_cons in Hnd as [Hk0 Hnd].
    apply Forall_cons in Hf as [Hv0 Hf]. simpl in Hv0.
    assert (Hr : (list_to_map rest : gmap string InVal) !! k0 = None)
      by (apply not_elem_of_list_to_map_1; done).
    simpl. destruct (mem k0 PROBLEMATIC_INPUTS) eqn:Hp; simpl.
    + rewrite bind_run, (inputs_names_run s pm Hpm); simpl.
      destruct (mem k0 (loaded_inputs_names pm)) eqn:Hn; simpl.
      * destruct (IH acc Hnd Hf) as [out [Hrun Hout]].
        exists out. split; [done|]. intros k.
        destruct (decide (k = k0)) as [->|Hne].
        -- rewrite lookup_insert_eq, Hout, Hr, Hp, Hn. done.
        -- rewrite lookup_insert_ne by congruence. apply Hout.
      * destruct (IH (delete k0 acc) Hnd Hf) as [out [Hrun Hout]].
        exists out. split; [done|]. intros k.
        destruct (decide (k = k0)) as [->|Hne].
        -- rewrite lookup_insert_eq, Hout, Hr, Hp, Hn, lookup_delete_eq. done.
        -- rewrite lookup_insert_ne, Hout by congruence.
           destruct (list_to_map rest !! k); [|by rewrite lookup_delete_ne by congruence].
           destruct (mem k PROBLEMATIC_INPUTS), (mem k (loaded_inputs_names pm)); try done;
             by rewrite lookup_delete_ne by congruence.
    + destruct v0 as [d dv|t]; [|discriminate Hv0; reflexivity]. simpl.
      destruct (IH (<[k0 := Tensor d dev]> acc) Hnd Hf) as [out [Hrun Hout]].
      exists out. split; [done|]. intros k.
      destruct (decide (k = k0)) as [->|Hne].
      -- rewrite lookup_insert_eq, Hout, Hr, Hp, lookup_insert_eq. done.
      -- rewrite lookup_insert_ne, Hout by congruence.
         destruct (list_to_map rest !! k); [|by rewrite lookup_insert_ne by congruence].
         destruct (mem k PROBLEMATIC_INPUTS), (mem k (loaded_inputs_names pm)); try done;
           by rewrite lookup_insert_ne by congruence.
Qed.

Lemma ort_prepare_inputs_spec (s : S) pm (inputs : gmap string InVal) :
  pretrained_model s = Some pm ->
  library (config s) <> "diffusers" ->
  map_Forall (fun k v => mem k PROBLEMATIC_INPUTS = false -> is_tensor v = true) inputs ->
  exists out, prepare_inputs inputs s = (inr out, s) /\
   forall k, out !! k =
     match inputs !! k with
     | Some v => if mem k PROBLEMATIC_INPUTS
                 then (if mem k (loaded_inputs_names pm) then Some v else None)
                 else Some (on_device (device (config s)) v)
     | None => None
     end.
Proof.
  intros Hpm Hlib Hf. unfold prepare_inputs, base_prepare_inputs.
  rewrite bind_run. simpl.
  destruct (String.eqb_spec (library (config s)) "diffusers") as [|_]; [done|].
  destruct (prepare_loop_spec (device (config s)) pm (map_to_list inputs) inputs s Hpm
              (NoDup_fst_map_to_list inputs)) as [out [Hrun Hout]].
  { apply map_Forall_to_list in Hf. eapply Forall_impl; [exact Hf|].
    intros [k v]; done. }
  exists out. split; [done|]. intros k. rewrite Hout, list_to_map_to_list.
  destruct (inputs !! k) eqn:E; [|done].
  destruct (mem k PROBLEMATIC_INPUTS), (mem k (loaded_inputs_names pm)); done.
Qed.

Lemma ort_prepare_inputs_diffusers (s : S) (inputs : gmap string InVal) p :
  library (config s) = "diffusers" -> inputs !! "prompt" = Some p ->
  prepare_inputs inputs s = (inr {[ "prompt" := p ]}, s).
Proof.
  intros Hlib Hp. unfold prepare_inputs, base_prepare_inputs.
  rewrite bind_run. simpl. rewrite Hlib, Hp. reflexivity.
Qed.

End ORTInputs.

Section OVInputs.
Import OV.

Lemma ov_prepare_inputs_diffusers (s : St OVConfig) (inputs : gmap string InVal) p :
  library (config s) = "diffusers" -> inputs !! "prompt" = Some p ->
  prepare_inputs inputs s = (inr {[ "prompt" := p ]}, s).
Proof.
  intros Hlib Hp. unfold prepare_inputs, base_prepare_inputs.
  rewrite bind_run. simpl. rewrite Hlib, Hp. reflexivity.
Qed.

Lemma ov_prepare_inputs_other (s : St OVConfig) (inputs : gmap string InVal) :
  library (config s) <> "diffusers" ->
  prepare_inputs inputs s = (inr inputs, s).
Proof.
  intros Hlib. unfold prepare_inputs, base_prepare_inputs.
  rewrite bind_run. simpl.
  destruct (String.eqb_spec (library (config s)) "diffusers"); [done|reflexivity].
Qed.

End OVInputs.

End PrepareFacts.


(** * The claims *)

Module Claims.
Import Examples.

(** C1 (amended).  If the Optimize/Quantize stages and the reload after
    them complete without raising, [config.model] and [config.export]
    equal their values before the stages: lines 57-74 of
    [ORTBackend.__init__] and the Quantize stage of [OVBackend.__init__]
    (lines 45-59).  No restoration happens when one of them raises. *)
Theorem C1_stages_restore_on_success :
  (forall env (s s' : ORT.S), ORT.transform_stages env s = (inr tt, s') ->
     ORT.model (config s') = ORT.model (config s) /\
     ORT.export (config s') = ORT.export (config s)) /\
  (forall env (s s' : OV.S), OV.quantize_stage env s = (inr tt, s') ->
     OV.model (config s') = OV.model (config s) /\
     OV.export (config s') = OV.export (config s)).
Proof.
  split; intros env s s' H.
  - apply ORTFacts.transform_stages_restores in H. by rewrite H.
  - apply OVFacts.quantize_stage_restores in H. by rewrite H.
Qed.

Lemma C1_witness :
  ORT.transform_stages ok_env (loaded_state optimized_cfg bert_loaded)
  = (inr tt, (ORT.transform_stages ok_env (loaded_state optimized_cfg bert_loaded)).2) /\
  ORT.model (config (ORT.transform_stages ok_env (loaded_state optimized_cfg bert_loaded)).2)
  = ORT.model (config (loaded_state optimized_cfg bert_loaded)).
Proof.
  split; [vm_compute; reflexivity|].
  apply (proj1 C1_stages_restore_on_success ok_env). vm_compute. reflexivity.
Defined.

(** C1 does not hold when a stage raises: with [ORTOptimizer.optimize]
    raising, [ORTBackend] propagates the error and [config.model] is left
    at the loaded model's save directory instead of ["bert"]. *)
Lemma C1_optimize_failure_leaks_model :
  (ORT.ORTBackend optimize_fails_env ort_tasks [] optimized_cfg true true).1
  = inl (LibError "optimization failed") /\
  ORT.model (config (ORT.ORTBackend optimize_fails_env ort_tasks [] optimized_cfg true true).2)
  = "/tmp/t/model" /\
  ORT.model optimized_cfg = "bert".
Proof. vm_compute. repeat split. Qed.

(** C2.  With calibration requested and more than one ONNX graph in the
    model directory, [quantize_onnx_files] raises [NotImplementedError]
    before any external call: the trace is unchanged, so the
    [DatasetGenerator] and the quantizers are never invoked. *)
Theorem C2_calibrated_multi_component_raises (env : Env) (s : ORT.S) (tmp : string)
    (files : list string) :
  tmpdir s = Some tmp ->
  ORT.is_calibrated (config s) = true ->
  ORT.onnx_files_names env s = (inr files, s) ->
  (1 < List.length files)%nat ->
  ORT.quantize_onnx_files env s
  = (inl (NotImplementedError
            ("Calibrated/Static Quantization is not supported for models with multiple components. "
             ++ "Found " ++ pretty (List.length files) ++ " components.")),
     set_quantized_model (path_join tmp "quantized_model") s) /\
  trace (set_quantized_model (path_join tmp "quantized_model") s) = trace s.
Proof.
  intros Ht Hc Hf Hn. split; [|done].
  exact (ORTFacts.calibrated_multi_raises env s tmp files Ht Hc Hf Hn).
Qed.

Lemma C2_witness :
  (ORT.quantize_onnx_files two_graphs_env (loaded_state calibrated_cfg bert_loaded)).1
  = inl (NotImplementedError
           ("Calibrated/Static Quantization is not supported for models with multiple components. "
            ++ "Found " ++ pretty (List.length ["encoder_model.onnx"; "decoder_model.onnx"])
            ++ " components.")).
Proof.
  rewrite (proj1 (C2_calibrated_multi_component_raises two_graphs_env
                    (loaded_state calibrated_cfg bert_loaded) "/tmp/t"
                    ["encoder_model.onnx"; "decoder_model.onnx"]
                    eq_refl eq_refl ltac:(vm_compute; reflexivity) ltac:(simpl; lia))).
  reflexivity.
Defined.

(** C3.  Whatever the manual flags, when an auto preset is set every
    optimization, quantization or calibration configuration that
    [ORTBackend(config)] hands to the optimum library is the auto one. *)
Theorem C3_auto_preset_takes_precedence (env : Env) (T1 T2 : list (string * string))
    (c : ORT.ORTConfig) (pconf pproc : bool) :
  (forall l, ORT.auto_optimization c = Some l ->
     forall oc d, EvOptimize oc d ∈ trace (ORT.ORTBackend env T1 T2 c pconf pproc).2 ->
     exists g, oc = OptAuto l g) /\
  (forall p, ORT.auto_quantization c = Some p ->
     forall f d qc b, EvQuantize f d qc b ∈ trace (ORT.ORTBackend env T1 T2 c pconf pproc).2 ->
     qc = QAuto p) /\
  (forall m, ORT.auto_calibration c = Some m ->
     forall f cc qc, EvFit f cc qc ∈ trace (ORT.ORTBackend env T1 T2 c pconf pproc).2 ->
     cc = CAuto m).
Proof.
  destruct (emits_snd _ _ _ (base_init c pconf pproc)
              (ORTFacts.ort_init_auto_events env T1 T2
                 (ORT.auto_optimization c) (ORT.auto_quantization c) (ORT.auto_calibration c))
              (conj eq_refl (conj eq_refl eq_refl))) as [_ (new & Ht & Hp)].
  unfold ORT.ORTBackend. rewrite Ht. simpl. rewrite Forall_forall in Hp.
  split; [|split].
  - intros l Hl oc d Hin. exact (Hp _ Hin l Hl).
  - intros p Hq f d qc b Hin. exact (Hp _ Hin p Hq).
  - intros m Hm f cc qc Hin. exact (proj1 (Hp _ Hin) m Hm).
Qed.

Lemma C3_witness :
  EvOptimize (OptAuto "O2" false) "/tmp/t/optimized"
    ∈ trace (ORT.ORTBackend ok_env ort_tasks [] auto_and_manual_cfg true true).2 /\
  exists g, OptAuto "O2" false = OptAuto "O2" g.
Proof.
  assert (Hin : EvOptimize (OptAuto "O2" false) "/tmp/t/optimized"
                ∈ trace (ORT.ORTBackend ok_env ort_tasks [] auto_and_manual_cfg true true).2)
    by (refine (bool_decide_unpack _ _); vm_compute; reflexivity).
  split; [exact Hin|].
  exact (proj1 (C3_auto_preset_takes_precedence ok_env ort_tasks [] auto_and_manual_cfg true true)
           "O2" eq_refl _ _ Hin).
Defined.

(** C4 (code bug).  When [backend.configure] raises an [Exception],
    [run_experiment] logs it and runs [backend.clean()], but the final
    [raise e] reads the name [e], which Python deleted at the end of the
    [except] block: the caller gets [UnboundLocalError] instead of the
    original error. *)
Theorem C4_run_error_replaced_by_unbound_local (r : Main.RunEnv) (e : exn) :
  r Main.SaveConfig = None -> r Main.BenchmarkConfigure = None ->
  r Main.BackendConstruct = None ->
  r Main.BackendConfigure = Some e -> is_Exception e = true ->
  r Main.LogError = None -> r Main.BackendClean = None ->
  Main.run_experiment r Main.empty_frame
  = (inl (UnboundLocalError "e"),
     Main.mkFrame [Main.SaveConfig; Main.BenchmarkConfigure; Main.BackendConstruct;
                   Main.BackendConfigure; Main.LogError; Main.BackendClean] None (Some true)).
Proof.
  intros H1 H2 H3 H4 He H5 H6.
  unfold Main.run_experiment, Main.try_except, Main.step, Main.read_raised_error, Main.read_e.
  rewrite !bind_run. simpl. rewrite H1. simpl. rewrite bind_run. simpl. rewrite H2. simpl.
  rewrite bind_run. simpl. rewrite H3. simpl. rewrite !bind_run. simpl.
  rewrite H4. simpl. rewrite He, !bind_run. simpl. rewrite H5. simpl.
  rewrite bind_run. simpl. rewrite H6. simpl. reflexivity.
Qed.

Lemma C4_witness :
  Main.run_experiment configure_fails Main.empty_frame
  = (inl (UnboundLocalError "e"),
     Main.mkFrame [Main.SaveConfig; Main.BenchmarkConfigure; Main.BackendConstruct;
                   Main.BackendConfigure; Main.LogError; Main.BackendClean] None (Some true)).
Proof.
  apply (C4_run_error_replaced_by_unbound_local configure_fails
           (ValueError "unknown backend option")); reflexivity.
Defined.

(** C5 (amended).  After the final load, [ORTBackend(config)] raises
    [ValueError] exactly when the first provider of the loaded model
    differs from [config.provider]; that raise skips the
    [tmpdir.cleanup()] that follows it in [__init__], so no workspace
    cleanup runs on that path. *)
Theorem C5_provider_mismatch_raises_without_cleanup (env : Env) (T1 T2 : list (string * string))
    (c : ORT.ORTConfig) (pconf pproc : bool) (s1 : ORT.S) (pm : Loaded) (p : string)
    (ps : list string) :
  ORT.ort_setup env T1 T2 (base_init c pconf pproc) = (inr tt, s1) ->
  pretrained_model s1 = Some pm ->
  providers pm = p :: ps ->
  ((exists msg, ORT.ORTBackend env T1 T2 c pconf pproc = (inl (ValueError msg), s1))
   <-> p <> ORT.provider (config s1)) /\
  (p <> ORT.provider (config s1) ->
   EvTmpCleanup ∉ trace (ORT.ORTBackend env T1 T2 c pconf pproc).2).
Proof. exact (ORTFacts.provider_mismatch_skips_cleanup env T1 T2 c pconf pproc s1 pm p ps). Qed.

Lemma C5_witness :
  (exists msg, ORT.ORTBackend ok_env ort_tasks [] cuda_provider_cfg true true
               = (inl (ValueError msg),
                  (ORT.ort_setup ok_env ort_tasks [] (base_init cuda_provider_cfg true true)).2))
  <-> "CPUExecutionProvider"
      <> ORT.provider (config (ORT.ort_setup ok_env ort_tasks []
                                 (base_init cuda_provider_cfg true true)).2).
Proof.
  apply (C5_provider_mismatch_raises_without_cleanup ok_env ort_tasks [] cuda_provider_cfg
           true true _ bert_loaded "CPUExecutionProvider" []);
    vm_compute; reflexivity.
Defined.

(** C5 as stated fails: on a provider mismatch the workspace cleanup does
    not run. *)
Lemma C5_mismatch_skips_cleanup :
  (ORT.ORTBackend ok_env ort_tasks [] cuda_provider_cfg true true).1
  = inl (ValueError "CUDAExecutionProvider is not first in providers list: ['CPUExecutionProvider']") /\
  EvTmpCleanup ∉ trace (ORT.ORTBackend ok_env ort_tasks [] cuda_provider_cfg true true).2.
Proof.
  split; [vm_compute; reflexivity|].
  refine (bool_decide_unpack _ _). vm_compute. reflexivity.
Qed.

(** C6.  A task with no registered loader class makes [ORTBackend] and
    [OVBackend] raise [NotImplementedError] in the state
    [Backend.__init__] left: empty trace (no load, no workspace, no other
    call) and no workspace.  For a supported task each backend looks the
    loader class up once, keeps it as [model_class] ([ortmodel_class],
    [ovmodel_class]), and every model load uses it. *)
Theorem C6_unsupported_task_fails_before_io :
  (forall env T1 T2 (c : ORT.ORTConfig) pconf pproc,
     assoc (ORT.task c) T1 = None -> assoc (ORT.task c) T2 = None ->
     ORT.ORTBackend env T1 T2 c pconf pproc
     = (inl (NotImplementedError ("ORTBackend does not support task " ++ ORT.task c)),
        base_init c pconf pproc)) /\
  (forall env T (c : OV.OVConfig) pconf pproc,
     assoc (OV.task c) T = None ->
     OV.OVBackend env T c pconf pproc
     = (inl (NotImplementedError ("OVBackend does not support task " ++ OV.task c)),
        base_init c pconf pproc)) /\
  (forall C (c : C) pconf pproc,
     trace (base_init c pconf pproc) = [] /\ tmpdir (base_init c pconf pproc) = None) /\
  (forall env T1 T2 (c : ORT.ORTConfig) pconf pproc n,
     (assoc (ORT.task c) T1 = Some n \/
      assoc (ORT.task c) T1 = None /\ assoc (ORT.task c) T2 = Some n) ->
     env_fail env (EvGetClass n) = None ->
     model_class (ORT.ORTBackend env T1 T2 c pconf pproc).2 = Some n /\
     forall cls m e p, EvLoad cls m e p ∈ trace (ORT.ORTBackend env T1 T2 c pconf pproc).2 ->
     cls = n) /\
  (forall env T (c : OV.OVConfig) pconf pproc n,
     assoc (OV.task c) T = Some n ->
     env_fail env (EvGetClass n) = None ->
     model_class (OV.OVBackend env T c pconf pproc).2 = Some n /\
     forall cls m e d, EvLoadOV cls m e d ∈ trace (OV.OVBackend env T c pconf pproc).2 ->
     cls = n).
Proof.
  split; [exact (ORTFacts.ort_unsupported)|].
  split; [exact (OVFacts.ov_unsupported)|].
  split; [done|].
  split.
  - intros env T1 T2 c pconf pproc n Hn Hf.
    exact (ORTFacts.ort_supported_caches env T1 T2 c pconf pproc n Hn Hf).
  - intros env T c pconf pproc n Hn Hf.
    exact (OVFacts.ov_supported_caches env T c pconf pproc n Hn Hf).
Qed.

Lemma C6_witness :
  ORT.ORTBackend ok_env [] [] plain_cfg true true
  = (inl (NotImplementedError "ORTBackend does not support task text-classification"),
     base_init plain_cfg true true).
Proof.
  exact (proj1 C6_unsupported_task_fails_before_io ok_env [] [] plain_cfg true true
           eq_refl eq_refl).
Defined.

(** C7 (amended).  [ORTBackend.prepare_inputs]: for diffusers the result
    is the prompt alone; otherwise a key outside [PROBLEMATIC_INPUTS] is
    moved to [config.device], a problematic key is dropped exactly when the
    loaded model does not declare it and kept as it is otherwise, and no
    other key is added.  [OVBackend.prepare_inputs] does only the diffusers
    reduction and otherwise returns the inputs unchanged. *)
Theorem C7_prepare_inputs :
  (forall (s : ORT.S) inputs p,
     ORT.library (config s) = "diffusers" -> inputs !! "prompt" = Some p ->
     ORT.prepare_inputs inputs s = (inr {[ "prompt" := p ]}, s)) /\
  (forall (s : ORT.S) pm inputs,
     pretrained_model s = Some pm ->
     ORT.library (config s) <> "diffusers" ->
     map_Forall (fun k v => mem k ORT.PROBLEMATIC_INPUTS = false -> is_tensor v = true) inputs ->
     exists out, ORT.prepare_inputs inputs s = (inr out, s) /\
     forall k, out !! k =
       match inputs !! k with
       | Some v => if mem k ORT.PROBLEMATIC_INPUTS
                   then (if mem k (loaded_inputs_names pm) then Some v else None)
                   else Some (on_device (ORT.device (config s)) v)
       | None => None
       end) /\
  (forall (s : OV.S) inputs p,
     OV.library (config s) = "diffusers" -> inputs !! "prompt" = Some p ->
     OV.prepare_inputs inputs s = (inr {[ "prompt" := p ]}, s)) /\
  (forall (s : OV.S) inputs,
     OV.library (config s) <> "diffusers" ->
     OV.prepare_inputs inputs s = (inr inputs, s)).
Proof.
  split; [exact PrepareFacts.ort_prepare_inputs_diffusers|].
  split; [exact PrepareFacts.ort_prepare_inputs_spec|].
  split; [exact PrepareFacts.ov_prepare_inputs_diffusers|].
  exact PrepareFacts.ov_prepare_inputs_other.
Qed.

Lemma C7_witness :
  exists out,
    ORT.prepare_inputs text_inputs
      (loaded_state plain_cfg (mkLoaded [] "" (Some ["token_type_ids"]) None))
    = (inr out, loaded_state plain_cfg (mkLoaded [] "" (Some ["token_type_ids"]) None)) /\
    forall k, out !! k =
      match text_inputs !! k with
      | Some v => if mem k ORT.PROBLEMATIC_INPUTS
                  then (if mem k ["token_type_ids"] then Some v else None)
                  else Some (on_device "cpu" v)
      | None => None
      end.
Proof.
  apply (proj1 (proj2 C7_prepare_inputs)
           (loaded_state plain_cfg (mkLoaded [] "" (Some ["token_type_ids"]) None))
           (mkLoaded [] "" (Some ["token_type_ids"]) None) text_inputs);
    [reflexivity|vm_compute; congruence|].
  refine (bool_decide_unpack _ _). vm_compute. reflexivity.
Defined.

(** C7 as stated fails: [OVBackend.prepare_inputs] returns a tensor
    input on ["cpu"] although [config.device] is ["gpu"]. *)
Lemma C7_ov_input_not_moved :
  (OV.prepare_inputs text_inputs (loaded_state (ov_cfg "transformers" "gpu" false None) bert_loaded)).1
  = inr text_inputs /\
  text_inputs !! "input_ids" = Some (Tensor 1 "cpu") /\
  OV.device (ov_cfg "transformers" "gpu" false None) = "gpu".
Proof. split; [vm_compute; reflexivity|]. split; reflexivity. Qed.

(** C8.  With [inter_op_num_threads] set to [n], [OVBackend(config)]
    writes [n] under [INFERENCE_NUM_THREADS] into the caller's
    [config.openvino_config] and nothing restores it, whatever the rest
    of the construction does. *)
Theorem C8_inter_op_threads_persist (env : Env) (T : list (string * string))
    (c : OV.OVConfig) (pconf pproc : bool) (n : Z) (cls : string) :
  OV.inter_op_num_threads c = Some n ->
  assoc (OV.task c) T = Some cls ->
  env_fail env (EvGetClass cls) = None ->
  OV.openvino_config (config (OV.OVBackend env T c pconf pproc).2)
  = <[OV.inference_num_threads := OV.OVInt n]> (OV.openvino_config c).
Proof. exact (OVFacts.ov_threads_persist env T c pconf pproc n cls). Qed.

Lemma C8_witness :
  OV.openvino_config
    (config (OV.OVBackend ok_env ov_tasks (ov_cfg "transformers" "cpu" false (Some 4%Z))
               true true).2)
  = <[OV.inference_num_threads := OV.OVInt 4]> ∅.
Proof.
  exact (C8_inter_op_threads_persist ok_env ov_tasks (ov_cfg "transformers" "cpu" false (Some 4%Z))
           true true 4 "OVModelForSequenceClassification" eq_refl eq_refl eq_refl).
Defined.

(** C9.  When the loaded model has neither [inputs_names] nor
    [input_names], [inputs_names] is [[]], and [prepare_inputs] (outside
    diffusers) drops every key of [PROBLEMATIC_INPUTS]. *)
Theorem C9_no_declared_names_drops_problematic (s : ORT.S) (pm : Loaded)
    (inputs : gmap string InVal) :
  pretrained_model s = Some pm ->
  attr_inputs_names pm = None -> attr_input_names pm = None ->
  ORT.inputs_names s = (inr [], s) /\
  (ORT.library (config s) <> "diffusers" ->
   map_Forall (fun k v => mem k ORT.PROBLEMATIC_INPUTS = false -> is_tensor v = true) inputs ->
   exists out, ORT.prepare_inputs inputs s = (inr out, s) /\
   forall k, k ∈ ORT.PROBLEMATIC_INPUTS -> out !! k = None).
Proof.
  intros Hpm H1 H2.
  assert (Hn : loaded_inputs_names pm = []) by (unfold loaded_inputs_names; by rewrite H1, H2).
  split; [rewrite <- Hn; exact (PrepareFacts.inputs_names_run s pm Hpm)|].
  intros Hlib Hf.
  destruct (PrepareFacts.ort_prepare_inputs_spec s pm inputs Hpm Hlib Hf) as [out [Hrun Hout]].
  exists out. split; [exact Hrun|]. intros k Hk. rewrite Hout, Hn.
  assert (Hm : mem k ORT.PROBLEMATIC_INPUTS = true) by (unfold mem; by apply bool_decide_eq_true).
  rewrite Hm. by destruct (inputs !! k).
Qed.

Lemma C9_witness :
  ORT.inputs_names (loaded_state plain_cfg (mkLoaded [] "" None None))
  = (inr [], loaded_state plain_cfg (mkLoaded [] "" None None)) /\
  (ORT.library plain_cfg <> "diffusers" ->
   map_Forall (fun k v => mem k ORT.PROBLEMATIC_INPUTS = false -> is_tensor v = true) text_inputs ->
   exists out, ORT.prepare_inputs text_inputs (loaded_state plain_cfg (mkLoaded [] "" None None))
               = (inr out, loaded_state plain_cfg (mkLoaded [] "" None None)) /\
   forall k, k ∈ ORT.PROBLEMATIC_INPUTS -> out !! k = None).
Proof.
  exact (C9_no_declared_names_drops_problematic
           (loaded_state plain_cfg (mkLoaded [] "" None None)) (mkLoaded [] "" None None)
           text_inputs eq_refl eq_refl eq_refl).
Defined.

(** C10.  [load_ovmodel_with_no_weights] loads from the no-weights
    directory with [export] forced to [True], and when it returns both
    [config.model] and [config.export] are back to their values before
    the call. *)
Theorem C10_no_weights_load_restores (env : Env) (s s' : OV.S) (tmp : string) :
  tmpdir s = Some tmp ->
  OV.load_ovmodel_with_no_weights env s = (inr tt, s') ->
  OV.model (config s') = OV.model (config s) /\
  OV.export (config s') = OV.export (config s) /\
  exists cls, EvLoadOV cls (path_join tmp "no_weights_model") true (OV.device (config s))
              ∈ trace s'.
Proof.
  intros Ht Hrun.
  destruct (OVFacts.no_weights_load_restores env s s' tmp Ht Hrun) as [Hc Hin].
  rewrite Hc. auto.
Qed.

Lemma C10_witness :
  exists cls, EvLoadOV cls "/tmp/t/no_weights_model" true "cpu"
    ∈ trace (OV.load_ovmodel_with_no_weights ok_env
               (loaded_state (ov_cfg "transformers" "cpu" true None) bert_loaded)).2.
Proof.
  apply (C10_no_weights_load_restores ok_env
           (loaded_state (ov_cfg "transformers" "cpu" true None) bert_loaded) _ "/tmp/t");
    [reflexivity|vm_compute; reflexivity].
Defined.

End Claims.

(** ** Further properties of the embedded code *)
Module Extras.
Import Examples.
Import ExtraExamples.
Import ORT.

(** X1. [onnx_files_names] leaves the backend unchanged and returns, in directory order, only the [.onnx] entries of the model directory; with [use_merged] the split decoder graphs [decoder_model.onnx] and [decoder_with_past_model.onnx] are not among them. *)
Theorem X1_onnx_files_names_filters (env : Env) (s s' : ORT.S) (files : list string) :
  ORT.onnx_files_names env s = (inr files, s') ->
  s' = s /\
  (files `sublist_of` env_listdir env (ORT.model (config s))) /\
  Forall (fun f => (endswith f ".onnx" = true)) files /\
  (ORT.use_merged (config s) = true ->
   (ORT.ONNX_DECODER_NAME ∉ files) /\ (ORT.ONNX_DECODER_WITH_PAST_NAME ∉ files)).
Proof.
  unfold ORT.onnx_files_names. intros Hrun. inv_run.
  all: split; [done|]; split; [by apply sublist_filter|]; split.
  all: lazymatch goal with
       | |- Forall _ _ =>
           apply Forall_forall; intros f Hf; apply list_elem_of_filter in Hf as [Hf _];
           apply Is_true_eq_true in Hf; cbv beta in Hf; lazymatch type of Hf with (negb _ && _) = true => apply andb_prop in Hf as [_ Hf] | _ => idtac end; exact Hf
       | |- _ -> _ =>
           intros Hm; try discriminate Hm;
           split; intros Hin; apply list_elem_of_filter in Hin as [Hin _];
           apply Is_true_eq_true in Hin; apply andb_prop in Hin as [Hn _]; revert Hn; vm_compute; done
       end.
Qed.

Lemma X1_witness :
  ORT.onnx_files_names decoder_env merged_state = (inr ["decoder_model_merged.onnx"], merged_state) /\
  (ORT.ONNX_DECODER_NAME ∉ ["decoder_model_merged.onnx"]) /\
  (ORT.ONNX_DECODER_WITH_PAST_NAME ∉ ["decoder_model_merged.onnx"]).
Proof.
  assert (H : ORT.onnx_files_names decoder_env merged_state
              = (inr ["decoder_model_merged.onnx"], merged_state)) by (vm_compute; reflexivity).
  split; [exact H|].
  exact (proj2 (proj2 (proj2 (X1_onnx_files_names_filters _ _ _ _ H))) eq_refl).
Defined.

Ltac inv_all :=
  repeat (inv_run; match goal with
    | H : get _ = (inr _, _) |- _ => injection H as <- <-
    | H : (match ?x with _ => _ end) _ = (inr _, _) |- _ => destruct x eqn:?
    end); inv_run.

Lemma optimize_run env (s s' : S) x tmp :
  tmpdir s = Some tmp -> optimize_onnx_files env s = (inr x, s') ->
  config s' = config s /\ tmpdir s' = tmpdir s /\ model_class s' = model_class s /\
  optimized_model s' = Some (path_join tmp "optimized") /\
  exists files rest, trace s' = trace s ++ EvOptimizerCreate (model (config s)) files :: rest /\
                     Forall (fun ev => forall m f, ev <> EvQuantizerCreate m f) rest.
Proof.
  intros Ht Hrun. unfold optimize_onnx_files, onnx_files_names, save_metadata in Hrun.
  inv_all; simplify_eq/=; (split_and!; [done..|]); eexists _, _; rewrite <- ?app_assoc; simpl;
    (split; [reflexivity|]); repeat constructor; congruence.
Qed.

Lemma quantize_files_run env c qd qc cc files (s s' : S) r :
  quantize_files env c qd qc cc files s = (r, s') ->
  config s' = config s /\ tmpdir s' = tmpdir s /\ model_class s' = model_class s /\
  quantized_model s' = quantized_model s /\
  exists new, trace s' = trace s ++ new /\
              Forall (fun ev => forall m f, ev = EvQuantizerCreate m f -> m = model c) new.
Proof.
  intros Hrun.
  pose proof (ORTFacts.quantize_files_emits env
    (fun s0 => config s0 = config s /\ tmpdir s0 = tmpdir s /\ model_class s0 = model_class s /\
               quantized_model s0 = quantized_model s)
    (fun ev => forall m f, ev = EvQuantizerCreate m f -> m = model c) c qd qc cc files) as Hq.
  destruct (Hq ltac:(intros; congruence) ltac:(intros; congruence) ltac:(intros; congruence)
              ltac:(intros ev s0 H; exact H) s r s' ltac:(done) Hrun) as [(? & ? & ? & ?) ?].
  done.
Qed.

Lemma quantize_run env (s s' : S) x tmp :
  tmpdir s = Some tmp -> quantize_onnx_files env s = (inr x, s') ->
  config s' = config s /\ tmpdir s' = tmpdir s /\ model_class s' = model_class s /\
  quantized_model s' = Some (path_join tmp "quantized_model") /\
  exists new, trace s' = trace s ++ new /\
              Forall (fun ev => forall m f, ev = EvQuantizerCreate m f -> m = model (config s)) new.
Proof.
  intros Ht Hrun. unfold quantize_onnx_files, onnx_files_names, save_metadata, inputs_names in Hrun.
  inv_all;
  repeat match goal with
  | H : quantize_files _ _ _ _ _ _ _ = _ |- _ =>
      apply quantize_files_run in H as (? & ? & ? & ? & ? & ? & ?)
  end; simplify_eq/=.
  all: split_and!; try congruence.
  all: repeat match goal with H : trace ?y = _ |- context [trace ?y] => rewrite H end.
  all: eexists; rewrite <- ?app_assoc; (split; [reflexivity|]).
  all: repeat (apply Forall_app; split); repeat constructor; try congruence; auto.
Qed.

Lemma load_run env (s s' : S) x cls :
  model_class s = Some cls -> load_ortmodel_from_pretrained env s = (inr x, s') ->
  trace s' = trace s ++ [EvLoad cls (model (config s)) (export (config s)) (provider (config s))] /\
  config s' = config s /\ tmpdir s' = tmpdir s /\ model_class s' = model_class s.
Proof.
  intros Hc Hrun. unfold load_ortmodel_from_pretrained in Hrun. inv_all; simplify_eq/=. done.
Qed.

(** X5. When both optimization and quantization run, the optimizer reads the loaded model's save directory and every quantizer reads the optimizer's output [tmpdir/optimized]; the model is then reloaded from [tmpdir/quantized_model] with [export=False]. *)
Theorem X5_quantize_reads_optimized env (s s' : S) tmp cls pm :
  tmpdir s = Some tmp -> model_class s = Some cls -> pretrained_model s = Some pm ->
  is_optimized (config s) = true -> is_quantized (config s) = true ->
  transform_stages env s = (inr tt, s') ->
  exists files new,
    trace s' = trace s ++ EvOptimizerCreate (model_save_dir pm) files :: new ++
               [EvLoad cls (path_join tmp "quantized_model") false (provider (config s))] /\
    Forall (fun ev => forall m f, ev = EvQuantizerCreate m f -> m = path_join tmp "optimized") new.
Proof.
  intros Ht Hc Hp Ho Hq Hrun.
  unfold transform_stages, set_config_model, set_config_export in Hrun.
  inv_run.
  all: try (rewrite Hp in H; injection H as <-).
  all: cbn [config set_config] in *;
       rewrite ?ORTFacts.is_optimized_set_model, ?ORTFacts.is_quantized_set_model in *;
       rewrite ?Ho, ?Hq in *; try discriminate.
  all: match goal with
       | H : optimize_onnx_files _ _ = _ |- _ =>
           apply optimize_run with (tmp := tmp) in H
             as (Hc1 & Ht1 & Hm1 & Ho1 & files & rest & Htr1 & Hf1); [|exact Ht]
       end.
  all: rewrite ?Hc1 in *; cbn [config set_config] in *;
       rewrite ?ORTFacts.is_optimized_set_model, ?ORTFacts.is_quantized_set_model in *;
       rewrite ?Ho, ?Hq in *; try discriminate.
  all: rewrite Ho1 in H2; injection H2 as <-.
  all: match goal with
       | H : quantize_onnx_files _ _ = _ |- _ =>
           apply quantize_run with (tmp := tmp) in H
             as (Hc2 & Ht2 & Hm2 & Hq2 & new & Htr2 & Hf2); [|exact (eq_trans Ht1 Ht)]
       end.
  all: rewrite ?Hc2 in *; cbn [config set_config] in *;
       rewrite ?ORTFacts.is_optimized_set_model, ?ORTFacts.is_quantized_set_model in *;
       rewrite ?Hc1 in *; cbn [config set_config] in *;
       rewrite ?ORTFacts.is_optimized_set_model, ?ORTFacts.is_quantized_set_model in *;
       rewrite ?Ho, ?Hq in *; try discriminate.
  rewrite Hq2 in H3. injection H3 as <-.
  apply load_run with (cls := cls) in H1 as (Htr3 & _); [|exact (eq_trans Hm2 (eq_trans Hm1 Hc))].
  exists files, (rest ++ new). cbn [trace set_config]. rewrite Htr3. cbn [trace set_config].
  rewrite Htr2. cbn [trace set_config]. rewrite Htr1. cbn [config set_config] in *.
  split.
  - cbn. rewrite <- !app_assoc. reflexivity.
  - apply Forall_app. split.
    + eapply Forall_impl; [exact Hf1|]. intros ev Hev m f ->. destruct (Hev m f eq_refl).
    + eapply Forall_impl; [exact Hf2|]. intros ev Hev m f Heq. rewrite (Hev m f Heq). reflexivity.
Qed.

Lemma X5_witness :
  opt_quant_run = (inr tt, opt_quant_run.2) /\
  exists files new,
    trace opt_quant_run.2 = trace (loaded_state opt_quant_cfg bert_loaded) ++
      EvOptimizerCreate (model_save_dir bert_loaded) files :: new ++
      [EvLoad "ORTModelForSequenceClassification" (path_join "/tmp/t" "quantized_model") false
              "CPUExecutionProvider"] /\
    Forall (fun ev => forall m f, ev = EvQuantizerCreate m f -> m = path_join "/tmp/t" "optimized") new.
Proof.
  assert (H : ORT.transform_stages ok_env (loaded_state opt_quant_cfg bert_loaded)
              = (inr tt, opt_quant_run.2)) by (vm_compute; reflexivity).
  split; [exact H|].
  pose proof (X5_quantize_reads_optimized ok_env (loaded_state opt_quant_cfg bert_loaded)
                opt_quant_run.2 "/tmp/t" "ORTModelForSequenceClassification" bert_loaded
                eq_refl eq_refl eq_refl eq_refl eq_refl H) as HX.
  exact HX.
Defined.

Lemma ort_nw_load_run env (s s' : S) x tmp cls :
  tmpdir s = Some tmp -> model_class s = Some cls ->
  load_ortmodel_with_no_weights env s = (inr x, s') ->
  let d := path_join tmp "no_weights_model" in
  let ev := EvLoad cls d (export (config s)) (provider (config s)) in
  config s' = config s /\ tmpdir s' = tmpdir s /\ model_class s' = model_class s /\
  no_weights_model s' = Some d /\ pretrained_model s' = Some (env_load env ev) /\
  trace s' = trace s ++ [EvCreateNoWeights d] ++
             (if String.eqb (library (config s)) "transformers" then [EvSaveMetadata d] else []) ++
             [ev].
Proof.
  intros Ht Hc Hrun.
  unfold load_ortmodel_with_no_weights, create_no_weights_model, load_ortmodel_from_pretrained,
    set_config_model in Hrun.
  inv_all; simplify_eq/=; rewrite ?ORTFacts.set_model_set_model, ?ORTFacts.set_model_model;
    rewrite <- ?app_assoc; rewrite ?Heqb; split_and!; done.
Qed.

(** X3. [load_ortmodel_with_no_weights] creates the no-weights model under [tmpdir/no_weights_model], saves its metadata only for the [transformers] library, loads the ORT model from that directory with the configured [export] and [provider], and leaves the configuration as it found it. *)
Theorem X3_ort_no_weights_load env (s s' : S) x tmp cls :
  tmpdir s = Some tmp -> model_class s = Some cls ->
  load_ortmodel_with_no_weights env s = (inr x, s') ->
  let d := path_join tmp "no_weights_model" in
  let ev := EvLoad cls d (export (config s)) (provider (config s)) in
  config s' = config s /\ no_weights_model s' = Some d /\ pretrained_model s' = Some (env_load env ev) /\
  trace s' = trace s ++ [EvCreateNoWeights d] ++
             (if String.eqb (library (config s)) "transformers" then [EvSaveMetadata d] else []) ++
             [ev].
Proof.
  intros Ht Hc Hrun. cbv zeta.
  destruct (ort_nw_load_run env s s' x tmp cls Ht Hc Hrun) as (? & _ & _ & ? & ? & ?).
  split_and!; assumption.
Qed.

Lemma X3_witness :
  ort_nw_run = (inr tt, ort_nw_run.2) /\
  no_weights_model ort_nw_run.2 = Some (path_join "/tmp/t" "no_weights_model").
Proof.
  assert (H : ORT.load_ortmodel_with_no_weights ok_env (loaded_state plain_cfg bert_loaded)
              = (inr tt, ort_nw_run.2)) by (vm_compute; reflexivity).
  split; [exact H|].
  pose proof (X3_ort_no_weights_load ok_env (loaded_state plain_cfg bert_loaded) ort_nw_run.2 tt
                "/tmp/t" "ORTModelForSequenceClassification" eq_refl eq_refl H) as HX.
  exact (proj1 (proj2 HX)).
Defined.

Lemma sso_keeps_config env keys (s s' : S) r :
  set_session_options env keys s = (r, s') -> config s' = config s.
Proof.
  intros Hrun.
  exact (proj1 (ORTFacts.set_session_options_emits env (fun s0 => config s0 = config s)
                  (fun _ => True) keys (fun _ => I) (fun ev s0 H => H) s r s' eq_refl Hrun)).
Qed.

Lemma nw_keeps_config env (s s' : S) r :
  load_ortmodel_with_no_weights env s = (inr r, s') -> config s' = config s.
Proof.
  intros Hrun.
  unfold load_ortmodel_with_no_weights, create_no_weights_model, load_ortmodel_from_pretrained,
    set_config_model in Hrun.
  inv_all; simplify_eq/=; by rewrite ?ORTFacts.set_model_set_model, ?ORTFacts.set_model_model.
Qed.

(** X6. A successful [ORTBackend] construction leaves the configuration exactly as it was given. *)
Theorem X6_ort_backend_keeps_config env T1 T2 (c : ORTConfig) (pconf pproc : bool) (s' : S) :
  ORTBackend env T1 T2 c pconf pproc = (inr tt, s') -> config s' = c.
Proof.
  unfold ORTBackend, ort_init, ort_setup, validate_provider, tmpdir_cleanup, tmpdir_create,
    validate_task.
  intros Hrun. inv_all.
  all: repeat match goal with
       | x : unit |- _ => destruct x
       | H : transform_stages _ _ = _ |- _ => apply ORTFacts.transform_stages_restores in H
       | H : set_session_options _ _ _ = _ |- _ => apply sso_keeps_config in H
       | H : load_ortmodel_with_no_weights _ _ = _ |- _ => apply nw_keeps_config in H
       | H : load_ortmodel_from_pretrained _ _ = _ |- _ =>
           apply (emits_keeps_config _ _ _ _ (ORTFacts.load_keeps_config _)) in H
       end.
  all: cbn [config add_event set_model_class set_tmpdir base_init] in *; congruence.
Qed.

Lemma X6_witness :
  ort_backend_run = (inr tt, ort_backend_run.2) /\ config ort_backend_run.2 = optimized_cfg.
Proof.
  assert (H : ORT.ORTBackend ok_env ort_tasks [] optimized_cfg true true
              = (inr tt, ort_backend_run.2)) by (vm_compute; reflexivity).
  split; [exact H|].
  exact (X6_ort_backend_keeps_config ok_env ort_tasks [] optimized_cfg true true
           ort_backend_run.2 H).
Defined.

(** X4. The per-file loop of [quantize_onnx_files] needs a quantization configuration (and a calibration configuration when calibrating) as soon as there is a file, and makes, file by file, exactly one quantizer, an optional [fit], and one [quantize] call with the same configuration. *)
Theorem X4_quantize_files_per_file env (c : ORTConfig) qd qc cc files (s s' : S) :
  quantize_files env c qd qc cc files s = (inr tt, s') ->
  (files <> [] -> is_Some qc /\ (is_calibrated c = true -> is_Some cc)) /\
  (forall q, qc = Some q -> is_calibrated c = false ->
   trace s' = trace s ++
     flat_map (fun f => [EvQuantizerCreate (model c) f; EvQuantize f qd q false]) files) /\
  (forall q k, qc = Some q -> cc = Some k -> is_calibrated c = true ->
   trace s' = trace s ++
     flat_map (fun f => [EvQuantizerCreate (model c) f; EvFit f k q; EvQuantize f qd q true]) files).
Proof.
  revert s. induction files as [|f fs IH]; intros s Hrun; simpl in Hrun.
  - inv_run. split_and!; intros; simpl; rewrite ?app_nil_r; done.
  - inv_all; destruct (IH _ Hrun) as (_ & IHu & IHc); clear IH Hrun; split_and!.
    all: try (intros _; split; [by eexists|intros; discriminate || by eexists]).
    all: intros; simplify_eq/=; try discriminate.
    all: first [rewrite (IHu _ eq_refl eq_refl) | rewrite (IHc _ _ eq_refl eq_refl eq_refl)];
      simpl; rewrite <- !app_assoc; reflexivity.
Qed.

Lemma X4_witness :
  calibrated_files_run = (inr tt, calibrated_files_run.2) /\
  trace calibrated_files_run.2
  = trace (loaded_state calibrated_cfg bert_loaded) ++
    flat_map (fun f => [EvQuantizerCreate (model calibrated_cfg) f; EvFit f CManual QManual;
                        EvQuantize f "/tmp/t/quantized_model" QManual true]) ["model.onnx"].
Proof.
  assert (H : ORT.quantize_files ok_env calibrated_cfg "/tmp/t/quantized_model" (Some QManual)
                (Some CManual) ["model.onnx"] (loaded_state calibrated_cfg bert_loaded)
              = (inr tt, calibrated_files_run.2)) by (vm_compute; reflexivity).
  split; [exact H|].
  exact (proj2 (proj2 (X4_quantize_files_per_file _ _ _ _ _ _ _ _ H)) QManual CManual
           eq_refl eq_refl eq_refl).
Defined.

(** X9. For the [diffusers] library, both backends' [prepare_inputs] raise [KeyError] on the key [prompt] when the inputs have none, leaving the backend unchanged. *)
Theorem X9_diffusers_without_prompt (s1 : ORT.S) (s2 : OV.S) (inputs : gmap string InVal) :
  inputs !! "prompt" = None ->
  ORT.library (config s1) = "diffusers" ->
  OV.library (config s2) = "diffusers" ->
  ORT.prepare_inputs inputs s1 = (inl (KeyError "prompt"), s1) /\
  OV.prepare_inputs inputs s2 = (inl (KeyError "prompt"), s2).
Proof.
  intros Hp H1 H2. unfold ORT.prepare_inputs, OV.prepare_inputs, base_prepare_inputs.
  rewrite !bind_run. cbn. rewrite H1, H2, Hp. split; reflexivity.
Qed.

Lemma X9_witness :
  ORT.prepare_inputs text_inputs (loaded_state ort_diffusers_cfg bert_loaded)
  = (inl (KeyError "prompt"), loaded_state ort_diffusers_cfg bert_loaded) /\
  OV.prepare_inputs text_inputs (loaded_state (ov_cfg "diffusers" "cpu" false None) bert_loaded)
  = (inl (KeyError "prompt"), loaded_state (ov_cfg "diffusers" "cpu" false None) bert_loaded).
Proof.
  apply X9_diffusers_without_prompt; vm_compute; reflexivity.
Defined.

Lemma prepare_loop_text dev pm items acc (s : S) k t :
  pretrained_model s = Some pm ->
  (k, Text t) ∈ items -> mem k PROBLEMATIC_INPUTS = false ->
  prepare_loop dev items acc s = (inl (AttributeError "to"), s).
Proof.
  intros Hpm. revert acc.
  induction items as [|[k0 v0] rest IH]; intros acc Hin Hk.
  - by apply elem_of_nil in Hin.
  - simpl. destruct (mem k0 PROBLEMATIC_INPUTS) eqn:Hp; simpl.
    + rewrite bind_run, (PrepareFacts.inputs_names_run s pm Hpm). simpl.
      apply elem_of_cons in Hin as [Heq|Hin]; [injection Heq as Hk0 _; subst; congruence|].
      destruct (mem k0 (loaded_inputs_names pm)); simpl; by apply IH.
    + destruct v0 as [d dv|t0]; simpl; [|reflexivity].
      apply elem_of_cons in Hin as [Heq|Hin]; [discriminate|]. by apply IH.
Qed.

(** X10. ORT [prepare_inputs] raises [AttributeError] ([.to] on a string) when a non-diffusers input that is not a problematic key holds a raw text value. *)
Theorem X10_text_value_not_moved (s : S) pm (inputs : gmap string InVal) k t :
  pretrained_model s = Some pm ->
  library (config s) <> "diffusers" ->
  inputs !! k = Some (Text t) -> k ∉ PROBLEMATIC_INPUTS ->
  prepare_inputs inputs s = (inl (AttributeError "to"), s).
Proof.
  intros Hpm Hl Hk Hnp. unfold prepare_inputs, base_prepare_inputs.
  rewrite bind_run. cbn -[prepare_loop].
  destruct (String.eqb_spec (library (config s)) "diffusers"); [congruence|].
  apply (prepare_loop_text _ pm _ _ _ k t Hpm).
  - by apply elem_of_map_to_list.
  - unfold mem. by apply bool_decide_eq_false.
Qed.

Lemma X10_witness :
  ORT.prepare_inputs raw_text_inputs (loaded_state plain_cfg bert_loaded)
  = (inl (AttributeError "to"), loaded_state plain_cfg bert_loaded).
Proof.
  apply (X10_text_value_not_moved _ bert_loaded _ "input_ids" "a cat").
  - reflexivity.
  - apply (bool_decide_unpack _); vm_compute; exact I.
  - vm_compute; reflexivity.
  - apply (bool_decide_unpack _); vm_compute; exact I.
Defined.

Lemma ov_nw_keeps_config env (s s' : OV.S) x :
  OV.load_ovmodel_with_no_weights env s = (inr x, s') -> config s' = config s.
Proof.
  intros Hrun.
  unfold OV.load_ovmodel_with_no_weights, OV.create_no_weights_model, OV.set_config_model,
    OV.set_config_export, OV.load_ovmodel_from_pretrained in Hrun.
  inv_all; simplify_eq/=; by destruct (config s).
Qed.

(** X7. A successful [OVBackend] construction changes the configuration only by adding [INFERENCE_NUM_THREADS] to [openvino_config] when [inter_op_num_threads] is set. *)
Theorem X7_ov_backend_config env T (c : OV.OVConfig) (pconf pproc : bool) (s' : OV.S) :
  OV.OVBackend env T c pconf pproc = (inr tt, s') ->
  config s' = match OV.inter_op_num_threads c with
              | Some n => OV.set_openvino_config
                            (<[OV.inference_num_threads := OV.OVInt n]> (OV.openvino_config c)) c
              | None => c
              end.
Proof.
  unfold OV.OVBackend, OV.ov_init, OV.validate_task, OV.apply_inter_op_num_threads,
    tmpdir_create, tmpdir_cleanup, OV.load_model.
  intros Hrun. inv_all.
  all: repeat match goal with
       | x : unit |- _ => destruct x
       | H : OV.quantize_stage _ _ = _ |- _ => apply OVFacts.quantize_stage_restores in H
       | H : OV.load_ovmodel_with_no_weights _ _ = _ |- _ => apply ov_nw_keeps_config in H
       | H : OV.load_ovmodel_from_pretrained _ _ = _ |- _ =>
           apply (emits_keeps_config _ _ _ _ (OVFacts.ovmodel_keeps_config _)) in H
       end.
  all: cbn [config add_event set_model_class set_tmpdir set_config base_init] in *;
       rewrite ?Heqo; congruence.
Qed.

Lemma X7_witness :
  ov_backend_run = (inr tt, ov_backend_run.2) /\
  config ov_backend_run.2
  = OV.set_openvino_config (<[OV.inference_num_threads := OV.OVInt 4]> ∅)
      (ov_cfg "transformers" "cpu" false (Some 4%Z)).
Proof.
  assert (H : OV.OVBackend ok_env ov_tasks (ov_cfg "transformers" "cpu" false (Some 4%Z)) true true
              = (inr tt, ov_backend_run.2)) by (vm_compute; reflexivity).
  split; [exact H|].
  exact (X7_ov_backend_config ok_env ov_tasks (ov_cfg "transformers" "cpu" false (Some 4%Z))
           true true ov_backend_run.2 H).
Defined.

Lemma automodel_run env (s s' : OV.S) x :
  OV.load_automodel_from_pretrained env s = (inr x, s') ->
  s' = add_event (EvLoadAuto (OV.model (config s))) s.
Proof. unfold OV.load_automodel_from_pretrained. intros Hrun. by inv_run. Qed.

Lemma automodel_nw_run env (s s' : OV.S) x tmp :
  tmpdir s = Some tmp -> OV.load_automodel_with_no_weights env s = (inr x, s') ->
  let nw := path_join tmp "no_weights_model" in
  trace s' = trace s ++ [EvCreateNoWeights nw] ++
    (if String.eqb (OV.library (config s)) "transformers" then [EvSaveMetadata nw] else []) ++
    [EvLoadAuto nw; EvTieWeights] /\
  config s' = config s /\ tmpdir s' = tmpdir s /\ model_class s' = model_class s.
Proof.
  intros Ht Hrun. pose proof (OVFacts.automodel_nw_restores env _ _ _ Hrun) as Hc.
  unfold OV.load_automodel_with_no_weights, OV.create_no_weights_model,
    OV.set_config_model in Hrun.
  inv_run.
  all: repeat match goal with
       | H : OV.load_automodel_from_pretrained _ _ = _ |- _ => apply automodel_run in H
       end; subst.
  all: cbn [trace tmpdir model_class no_weights_model config add_event set_config
            set_no_weights_model OV.model OV.set_model] in *.
  all: rewrite Ht in *; simplify_eq.
  all: rewrite ?Heqb; split_and!; try done; rewrite <- ?app_assoc; reflexivity.
Qed.

Lemma quantize_automodel_run env (s s' : OV.S) x tmp :
  tmpdir s = Some tmp -> OV.quantize_automodel env s = (inr x, s') ->
  let qd := path_join tmp "quantized_model" in
  trace s' = trace s ++ [EvOVQuantizerCreate (OV.task (config s))] ++
    (if OV.calibration (config s) then [EvGenDataset (OV.task (config s))] else []) ++
    [EvOVQuantize qd (OV.calibration (config s))] /\
  quantized_model s' = Some qd /\
  config s' = config s /\ tmpdir s' = tmpdir s /\ model_class s' = model_class s.
Proof.
  intros Ht Hrun. unfold OV.quantize_automodel in Hrun. inv_run.
  all: cbn [trace tmpdir model_class quantized_model config add_event set_quantized_model] in *;
       simplify_eq; rewrite ?Heqb; split_and!; try done; rewrite <- ?app_assoc; reflexivity.
Qed.

Lemma ovmodel_run env (s s' : OV.S) x cls :
  model_class s = Some cls -> OV.load_ovmodel_from_pretrained env s = (inr x, s') ->
  trace s' = trace s ++ [EvLoadOV cls (OV.model (config s)) (OV.export (config s))
                                 (OV.device (config s))] /\
  quantized_model s' = quantized_model s.
Proof.
  intros Hc Hrun. unfold OV.load_ovmodel_from_pretrained in Hrun. inv_run. simplify_eq. done.
Qed.
(** X8. With [quantization], [OVBackend]'s model loading runs: the AutoModel load (through the no-weights model if asked), one [OVQuantizer], a calibration dataset only when calibrating, the quantization into [tmpdir/quantized_model], and the reload of the OV model from there with [export=False]. *)
Theorem X8_ov_quantized_reload env (s s' : OV.S) tmp cls :
  tmpdir s = Some tmp -> model_class s = Some cls -> OV.quantization (config s) = true ->
  OV.load_model env s = (inr tt, s') ->
  let c := config s in
  let nw := path_join tmp "no_weights_model" in
  let qd := path_join tmp "quantized_model" in
  quantized_model s' = Some qd /\
  trace s' = trace s ++
    (if OV.no_weights c
     then [EvCreateNoWeights nw] ++
          (if String.eqb (OV.library c) "transformers" then [EvSaveMetadata nw] else []) ++
          [EvLoadAuto nw; EvTieWeights]
     else [EvLoadAuto (OV.model c)]) ++
    [EvOVQuantizerCreate (OV.task c)] ++
    (if OV.calibration c then [EvGenDataset (OV.task c)] else []) ++
    [EvOVQuantize qd (OV.calibration c); EvLoadOV cls qd false (OV.device c)].
Proof.
  intros Ht Hc Hq Hrun.
  unfold OV.load_model, OV.quantize_stage, OV.set_config_model, OV.set_config_export in Hrun.
  inv_run; rewrite ?Hq in *; try discriminate.
  all: match goal with
       | H : OV.load_automodel_with_no_weights _ _ = _ |- _ =>
           apply (automodel_nw_run _ _ _ _ tmp Ht) in H as (Htr1 & Hc1 & Ht1 & Hm1)
       | H : OV.load_automodel_from_pretrained _ _ = _ |- _ => apply automodel_run in H; subst
       end.
  all: match goal with
       | H : OV.quantize_automodel _ _ = _ |- _ =>
           apply (quantize_automodel_run _ _ _ _ tmp) in H as (Htr2 & Hq2 & Hc2 & Ht2 & Hm2);
           [|cbn [tmpdir add_event]; congruence]
       end.
  all: rewrite Hq2 in *; simplify_eq.
  all: match goal with
       | H : OV.load_ovmodel_from_pretrained _ _ = _ |- _ =>
           apply (ovmodel_run _ _ _ _ cls) in H as [Htr3 Hq3];
           [|cbn [model_class add_event set_config] in *; congruence]
       end.
  all: cbn [trace quantized_model config add_event set_config] in *.
  all: rewrite Htr3, ?Htr2, ?Htr1 in *; rewrite ?Hc2, ?Hc1 in *;
       cbn [config add_event OV.model OV.export OV.set_model OV.set_export] in *.
  all: split; [congruence|].
  all: match goal with H : OV.no_weights _ = _ |- _ => rewrite H end;
       cbn [OV.device OV.set_export OV.set_model]; rewrite <- !app_assoc; reflexivity.
Qed.

Lemma X8_witness :
  ov_quant_run = (inr tt, ov_quant_run.2) /\
  quantized_model ov_quant_run.2 = Some (path_join "/tmp/t" "quantized_model").
Proof.
  assert (H : OV.load_model ok_env (loaded_state ov_quant_cfg bert_loaded)
              = (inr tt, ov_quant_run.2)) by (vm_compute; reflexivity).
  split; [exact H|].
  pose proof (X8_ov_quantized_reload ok_env (loaded_state ov_quant_cfg bert_loaded) ov_quant_run.2
                "/tmp/t" "ORTModelForSequenceClassification" eq_refl eq_refl eq_refl H) as HX.
  exact (proj1 HX).
Defined.

Import Main.

Ltac run_steps :=
  unfold run_experiment, try_except, step, read_raised_error, read_e, modify;
  repeat (rewrite ?bind_run; cbn -[is_Exception];
          match goal with
          | |- context [match ?r ?st with _ => _ end] => destruct (r st) eqn:?
          | |- context [if is_Exception ?e then _ else _] => destruct (is_Exception e) eqn:?
          end); rewrite ?bind_run; cbn -[is_Exception].

(** X11. [run_experiment] returns normally exactly when no step except the error log raises, and then it runs the seven steps in order and binds [raised_error = False]. *)
Theorem X11_run_experiment_success (r : RunEnv) :
  (fst (run_experiment r empty_frame) = inr tt <->
   forall st, st <> LogError -> r st = None) /\
  ((forall st, st <> LogError -> r st = None) ->
   run_experiment r empty_frame
   = (inr tt, mkFrame [SaveConfig; BenchmarkConfigure; BackendConstruct; BackendConfigure;
                       BenchmarkRun; BenchmarkSave; BackendClean] None (Some false))).
Proof.
  split; [split|].
  - intros H st Hst. destruct st; try congruence; revert H; run_steps; done.
  - intros H. run_steps; try reflexivity;
      match goal with E : r ?st = Some _ |- _ => rewrite H in E; congruence end.
  - intros H. run_steps; try reflexivity;
      match goal with E : r ?st = Some _ |- _ => rewrite H in E; congruence end.
Qed.

(** X12. An exception raised while saving the configuration, configuring the benchmark or constructing the backend escapes [run_experiment] unchanged, before the error is logged or the backend cleaned. *)
Theorem X12_setup_error_propagates (r : RunEnv) (e : exn) :
  r SaveConfig = Some e \/
  (r SaveConfig = None /\ r BenchmarkConfigure = Some e) \/
  (r SaveConfig = None /\ r BenchmarkConfigure = None /\ r BackendConstruct = Some e) ->
  exists f, run_experiment r empty_frame = (inl e, f) /\
            (BackendClean ∉ steps f) /\ (LogError ∉ steps f).
Proof.
  intros H. run_steps; destruct H as [H|[[H1 H]|(H1 & H2 & H)]]; simplify_eq;
    eexists; (split; [reflexivity|]); cbn; split; set_solver.
Qed.

Lemma X12_witness :
  exists f, Main.run_experiment save_fails Main.empty_frame
            = (inl (ValueError "cannot write the configuration"), f) /\
            (Main.BackendClean ∉ Main.steps f) /\ (Main.LogError ∉ Main.steps f).
Proof.
  apply X12_setup_error_propagates. left. reflexivity.
Defined.

(** X13. A [BaseException] that is not an [Exception] (such as [KeyboardInterrupt]) raised by [backend.configure], [benchmark.run] or [benchmark.save] escapes without the handler: the backend is not cleaned and nothing is logged. *)
Theorem X13_base_exception_skips_handler (r : RunEnv) (e : exn) :
  r SaveConfig = None -> r BenchmarkConfigure = None -> r BackendConstruct = None ->
  is_Exception e = false ->
  r BackendConfigure = Some e \/
  (r BackendConfigure = None /\ r BenchmarkRun = Some e) \/
  (r BackendConfigure = None /\ r BenchmarkRun = None /\ r BenchmarkSave = Some e) ->
  exists f, run_experiment r empty_frame = (inl e, f) /\
            (BackendClean ∉ steps f) /\ (LogError ∉ steps f).
Proof.
  intros H1 H2 H3 He H. run_steps; simplify_eq;
    destruct H as [H|[[H4 H]|(H4 & H5 & H)]]; simplify_eq; try congruence;
    eexists; (split; [reflexivity|]); cbn; split; set_solver.
Qed.

Lemma X13_witness :
  exists f, Main.run_experiment run_interrupted Main.empty_frame = (inl KeyboardInterrupt, f) /\
            (Main.BackendClean ∉ Main.steps f) /\ (Main.LogError ∉ Main.steps f).
Proof.
  apply X13_base_exception_skips_handler; [reflexivity..|].
  right. left. split; reflexivity.
Defined.

(** X14. Once the handler has logged an error, [run_experiment] never re-raises the original exception: it fails with [UnboundLocalError] on [e], or with an exception of the logging or cleaning call. *)
Theorem X14_handler_never_reraises (r : RunEnv) (x : exn) (f : Frame) :
  run_experiment r empty_frame = (inl x, f) -> LogError ∈ steps f ->
  x = UnboundLocalError "e" \/ r LogError = Some x \/ r BackendClean = Some x.
Proof.
  intros Hrun Hin. revert Hrun. run_steps; intros Hrun; simplify_eq; cbn in Hin; auto.
  all: try (exfalso; repeat (apply elem_of_cons in Hin as [Hin|Hin]; [discriminate|]);
            by apply elem_of_nil in Hin).
  all: rewrite bind_run in Hrun; cbn in Hrun; simplify_eq; auto.
Qed.

Lemma X14_witness :
  Main.run_experiment configure_fails Main.empty_frame
  = (inl (UnboundLocalError "e"),
     Main.mkFrame [Main.SaveConfig; Main.BenchmarkConfigure; Main.BackendConstruct;
                   Main.BackendConfigure; Main.LogError; Main.BackendClean] None (Some true)) /\
  (UnboundLocalError "e" = UnboundLocalError "e" \/
   configure_fails Main.LogError = Some (UnboundLocalError "e") \/
   configure_fails Main.BackendClean = Some (UnboundLocalError "e")).
Proof.
  assert (H : Main.run_experiment configure_fails Main.empty_frame
              = (inl (UnboundLocalError "e"),
                 Main.mkFrame [Main.SaveConfig; Main.BenchmarkConfigure; Main.BackendConstruct;
                               Main.BackendConfigure; Main.LogError; Main.BackendClean]
                   None (Some true))) by reflexivity.
  split; [exact H|].
  apply (X14_handler_never_reraises _ _ _ H). simpl. by repeat constructor.
Defined.

(** X15. [prepare_for_inference] makes no call on the model when neither [reshape] nor [half] is set; when one is set and nothing raises, [compile] is the last call and is made once; a failing [reshape] stops before [half] and [compile]. *)
Theorem X15_prepare_for_inference_calls (fails : OV.OVCall -> option exn) (reshape half : bool)
    (args : list string) (kwargs : gmap string OV.pyval) (tr : list OV.OVCall) :
  (reshape = false -> half = false ->
   OV.prepare_for_inference fails reshape half args kwargs tr = (inr tt, tr)) /\
  (forall tr', OV.prepare_for_inference fails reshape half args kwargs tr = (inr tt, tr') ->
   reshape || half = true ->
   exists pre, tr' = tr ++ pre ++ [OV.OVCompile] /\ OV.OVCompile ∉ pre) /\
  (forall e, reshape = true -> fails (OV.OVReshape (OV.static_shapes args kwargs)) = Some e ->
   OV.prepare_for_inference fails reshape half args kwargs tr
   = (inl e, tr ++ [OV.OVReshape (OV.static_shapes args kwargs)])).
Proof.
  unfold OV.prepare_for_inference, OV.model_call.
  generalize (OV.static_shapes args kwargs) as sh. intros sh.
  split_and!.
  - intros -> ->. reflexivity.
  - intros tr' Hrun Hrh.
    destruct reshape, half; simpl in Hrh; try discriminate; revert Hrun;
      cbv [mbind M_bind mret M_ret orb].
    all: destruct (fails (OV.OVReshape sh)), (fails OV.OVHalf), (fails OV.OVCompile);
      intros Hrun; try discriminate Hrun; injection Hrun as <-.
    all: match goal with |- context [(?a ++ ?b) ++ [OV.OVCompile]] => exists (drop (List.length tr) (a ++ b)) end.
    all: rewrite <- !app_assoc, drop_app_length; split; [reflexivity|].
    all: let Hin := fresh in intro Hin; repeat (apply elem_of_cons in Hin as [Hin|Hin]; [discriminate|]); by apply elem_of_nil in Hin.
  - intros e -> He. rewrite bind_run; cbn. rewrite He. reflexivity.
Qed.

(** X16. The [static_shapes] of [prepare_for_inference] hold exactly the keyword arguments named by [reshape]'s signature, each with its value, except [sequence_length]: it keeps its value unless a [height] that is not [None] is also passed, and then becomes [num_channels] (default 3). *)
Theorem X16_static_shapes (args : list string) (kwargs : gmap string OV.pyval) (k : string) :
  (k ∉ args \/ kwargs !! k = None -> OV.static_shapes args kwargs !! k = None) /\
  (k <> "sequence_length" -> k ∈ args -> OV.static_shapes args kwargs !! k = kwargs !! k) /\
  (forall h l, "height" ∈ args -> kwargs !! "height" = Some h -> h <> OV.PyNone ->
   "sequence_length" ∈ args -> kwargs !! "sequence_length" = Some l ->
   OV.static_shapes args kwargs !! "sequence_length"
   = Some (default (OV.PyInt 3) (kwargs !! "num_channels"))) /\
  ("sequence_length" ∈ args ->
   (forall h, "height" ∈ args -> kwargs !! "height" = Some h -> h = OV.PyNone) ->
   OV.static_shapes args kwargs !! "sequence_length" = kwargs !! "sequence_length").
Proof.
  unfold OV.static_shapes.
  assert (Hf : forall k', (filter (fun kv : string * OV.pyval => kv.1 ∈ args) kwargs) !! k'
                          = if decide (k' ∈ args) then kwargs !! k' else None).
  { intros k'. rewrite map_lookup_filter. destruct (kwargs !! k'); simpl; [|by case_decide].
    unfold guard. by repeat case_decide. }
  split_and!.
  - intros Hk. case_match eqn:Hc.
    + apply andb_prop in Hc as [_ Hs]. apply bool_decide_eq_true in Hs.
      destruct (decide (k = "sequence_length")) as [->|Hne].
      * exfalso. rewrite Hf in Hs. case_decide; destruct Hk as [Hk|Hk]; try done.
        rewrite Hk in Hs. by destruct Hs.
      * rewrite lookup_insert_ne by congruence. rewrite Hf. case_decide; destruct Hk; done.
    + rewrite Hf. case_decide; destruct Hk; done.
  - intros Hne Hin. case_match; [rewrite lookup_insert_ne by congruence|];
      rewrite Hf; by case_decide.
  - intros h l Hh Hhv Hnone Hs Hl. rewrite !Hf. repeat case_decide; try done.
    rewrite Hhv, Hl. destruct h; try congruence; cbn; by rewrite lookup_insert_eq.
  - intros Hs Hh. case_match eqn:Hc; [|rewrite Hf; by case_decide].
    exfalso. apply andb_prop in Hc as [Hc _]. rewrite Hf in Hc.
    case_decide as Hin; [|done].
    destruct (kwargs !! "height") as [h|] eqn:E; [|done].
    rewrite (Hh h Hin eq_refl) in Hc. discriminate.
Qed.

End Extras.
